(** * VoiceControl: the real-time audio streaming client

    A shallow embedding of [src/components/VoiceControl.tsx].  The React
    component keeps its working data in refs ([useRef]) and a few pieces of
    view state ([useState]); every callback of the component reads and
    writes them.  Here they are the fields of one record [State], and each
    callback is a function from [State] to [State].

    Conventions of the embedding:
    - JavaScript numbers that hold sample values and energies are rationals
      ([Q]); numbers that hold counts, sizes and millisecond clocks are
      integers ([Z]).  [Math.sqrt] is a parameter of the development.
    - [Date.now()] is an input: a callback that reads the clock takes the
      reading as an argument.
    - [ws.send] appends the event to the ghost field [wire]; the payload of
      an append event is the byte array that the source then wraps with
      [btoa] and [JSON.stringify].
    - [silenceTimeoutRef] is never assigned a timer in the source, so the
      branches [if (silenceTimeoutRef.current)] are dead and left out.
    - [updateVisualization] writes only [audioLevelHistoryRef], which no
      callback reads; it is left out.
    - Audio frames are non-empty (the worklet and the analyser deliver 4096
      samples).
    - [isRecording] is read from the state.  The frame handler and the
      chunk timer are closures created when recording starts, where
      [isRecording] is true; while recording is in progress the two agree.
    - The millisecond clock counts from the mount of the component:
      [lastSpeechTimeRef] starts at 0. *)

From Stdlib Require Import ZArith QArith Qminmax Qabs Qround.
From Stdlib Require Import List String Ascii Bool.
From Stdlib Require Import Lia Lqa.
From Stdlib Require Import DecimalString.
Import ListNotations.
Local Open Scope string_scope.
Local Open Scope list_scope.
Local Open Scope Z_scope.

Module VoiceControl.

(** ** Data *)

Record AudioConfig := {
  serverUrl : string;
  chunkSize : Z;
  audioQuality : Z;
  silenceThreshold : Q;
  autoCommitDelay : Z
}.

Record AudioStats := {
  st_totalChunks : Z;
  st_totalBytes : Z;
  st_latencySum : Z;
  st_latencyCount : Z;
  st_bufferSize : Q
}.

Inductive LogType := info | success | warning | error.

Record LogEntry := { message : string; type : LogType }.

Record SessionInfo := { id : string; model : string }.

Record CommandResponse := { cr_success : bool; cr_message : string }.

(** [WebSocket.readyState] *)
Inductive ReadyState := CONNECTING | OPEN | CLOSING | CLOSED.

(** Outbound events, by their [type] field. *)
Inductive ClientEvent :=
| input_audio_buffer_append (audio : list Z)
| input_audio_buffer_commit
| input_audio_buffer_clear.

(** Inbound messages: the fields of the parsed JSON that
    [handleServerMessage] reads, by the [type] it switches on. *)
Record ContentPart := { text : option string }.
Record OutputItem := { content : option (list ContentPart) }.

Inductive ServerMessage :=
| session_created (session_id : string) (session_model : option string)
| session_updated
| input_audio_buffer_committed
| response_created (response_id : string)
| response_audio_delta
| response_done (output : option (list OutputItem)) (total_tokens : option Z)
| server_error (error_message : string)
| unknown_message (message_type : string).

Record State := mkState {
  ws : option ReadyState; (* wsRef: the socket, if one was created, with its readyState *)
  audioBuffer : list Q; (* audioBufferRef *)
  debugAudioData : list Q; (* debugAudioDataRef *)
  sessionId : option string; (* sessionIdRef *)
  chunkCounter : Z; (* chunkCounterRef *)
  totalBytes : Z; (* totalBytesRef *)
  latencySum : Z; (* latencySumRef *)
  latencyCount : Z; (* latencyCountRef *)
  isProcessingAudio : bool; (* isProcessingAudioRef *)
  isSleeping : bool; (* isSleepingRef *)
  silenceDetectionBuffer : list Q; (* silenceDetectionBufferRef *)
  lastSpeechTime : Z; (* lastSpeechTimeRef *)
  hasSpeechInBuffer : bool; (* hasSpeechInBufferRef *)
  isConnected : bool; (* useState *)
  isRecording : bool; (* useState *)
  audioStats : AudioStats; (* useState *)
  transcription : string; (* useState *)
  sessionInfo : option SessionInfo; (* useState *)
  audioLevel : Q; (* useState *)
  confidenceIndicator : string; (* useState *)
  silenceDetected : bool; (* useState *)
  logs : list LogEntry; (* useState *)
  isProcessing : bool; (* prop of the parent *)
  result : option CommandResponse; (* parent state behind setResult *)
  command : string; (* parent state behind setCommand *)
  commandHistory : list string; (* parent state behind setCommandHistory *)
  wire : list ClientEvent (* every event handed to ws.send, oldest first *)
}.

Definition set_ws (s : State) (v : option ReadyState) : State :=
  mkState v (audioBuffer s) (debugAudioData s) (sessionId s)
    (chunkCounter s) (totalBytes s) (latencySum s) (latencyCount s)
    (isProcessingAudio s) (isSleeping s) (silenceDetectionBuffer s)
    (lastSpeechTime s) (hasSpeechInBuffer s) (isConnected s) (isRecording s)
    (audioStats s) (transcription s) (sessionInfo s) (audioLevel s)
    (confidenceIndicator s) (silenceDetected s) (logs s) (isProcessing s)
    (result s) (command s) (commandHistory s) (wire s).

Definition set_audioBuffer (s : State) (v : list Q) : State :=
  mkState (ws s) v (debugAudioData s) (sessionId s) (chunkCounter s)
    (totalBytes s) (latencySum s) (latencyCount s) (isProcessingAudio s)
    (isSleeping s) (silenceDetectionBuffer s) (lastSpeechTime s)
    (hasSpeechInBuffer s) (isConnected s) (isRecording s) (audioStats s)
    (transcription s) (sessionInfo s) (audioLevel s) (confidenceIndicator s)
    (silenceDetected s) (logs s) (isProcessing s) (result s) (command s)
    (commandHistory s) (wire s).

Definition set_debugAudioData (s : State) (v : list Q) : State :=
  mkState (ws s) (audioBuffer s) v (sessionId s) (chunkCounter s)
    (totalBytes s) (latencySum s) (latencyCount s) (isProcessingAudio s)
    (isSleeping s) (silenceDetectionBuffer s) (lastSpeechTime s)
    (hasSpeechInBuffer s) (isConnected s) (isRecording s) (audioStats s)
    (transcription s) (sessionInfo s) (audioLevel s) (confidenceIndicator s)
    (silenceDetected s) (logs s) (isProcessing s) (result s) (command s)
    (commandHistory s) (wire s).

Definition set_sessionId (s : State) (v : option string) : State :=
  mkState (ws s) (audioBuffer s) (debugAudioData s) v (chunkCounter s)
    (totalBytes s) (latencySum s) (latencyCount s) (isProcessingAudio s)
    (isSleeping s) (silenceDetectionBuffer s) (lastSpeechTime s)
    (hasSpeechInBuffer s) (isConnected s) (isRecording s) (audioStats s)
    (transcription s) (sessionInfo s) (audioLevel s) (confidenceIndicator s)
    (silenceDetected s) (logs s) (isProcessing s) (result s) (command s)
    (commandHistory s) (wire s).

Definition set_chunkCounter (s : State) (v : Z) : State :=
  mkState (ws s) (audioBuffer s) (debugAudioData s) (sessionId s) v
    (totalBytes s) (latencySum s) (latencyCount s) (isProcessingAudio s)
    (isSleeping s) (silenceDetectionBuffer s) (lastSpeechTime s)
    (hasSpeechInBuffer s) (isConnected s) (isRecording s) (audioStats s)
    (transcription s) (sessionInfo s) (audioLevel s) (confidenceIndicator s)
    (silenceDetected s) (logs s) (isProcessing s) (result s) (command s)
    (commandHistory s) (wire s).

Definition set_totalBytes (s : State) (v : Z) : State :=
  mkState (ws s) (audioBuffer s) (debugAudioData s) (sessionId s)
    (chunkCounter s) v (latencySum s) (latencyCount s) (isProcessingAudio s)
    (isSleeping s) (silenceDetectionBuffer s) (lastSpeechTime s)
    (hasSpeechInBuffer s) (isConnected s) (isRecording s) (audioStats s)
    (transcription s) (sessionInfo s) (audioLevel s) (confidenceIndicator s)
    (silenceDetected s) (logs s) (isProcessing s) (result s) (command s)
    (commandHistory s) (wire s).

Definition set_latencySum (s : State) (v : Z) : State :=
  mkState (ws s) (audioBuffer s) (debugAudioData s) (sessionId s)
    (chunkCounter s) (totalBytes s) v (latencyCount s) (isProcessingAudio s)
    (isSleeping s) (silenceDetectionBuffer s) (lastSpeechTime s)
    (hasSpeechInBuffer s) (isConnected s) (isRecording s) (audioStats s)
    (transcription s) (sessionInfo s) (audioLevel s) (confidenceIndicator s)
    (silenceDetected s) (logs s) (isProcessing s) (result s) (command s)
    (commandHistory s) (wire s).

Definition set_latencyCount (s : State) (v : Z) : State :=
  mkState (ws s) (audioBuffer s) (debugAudioData s) (sessionId s)
    (chunkCounter s) (totalBytes s) (latencySum s) v (isProcessingAudio s)
    (isSleeping s) (silenceDetectionBuffer s) (lastSpeechTime s)
    (hasSpeechInBuffer s) (isConnected s) (isRecording s) (audioStats s)
    (transcription s) (sessionInfo s) (audioLevel s) (confidenceIndicator s)
    (silenceDetected s) (logs s) (isProcessing s) (result s) (command s)
    (commandHistory s) (wire s).

Definition set_isProcessingAudio (s : State) (v : bool) : State :=
  mkState (ws s) (audioBuffer s) (debugAudioData s) (sessionId s)
    (chunkCounter s) (totalBytes s) (latencySum s) (latencyCount s) v
    (isSleeping s) (silenceDetectionBuffer s) (lastSpeechTime s)
    (hasSpeechInBuffer s) (isConnected s) (isRecording s) (audioStats s)
    (transcription s) (sessionInfo s) (audioLevel s) (confidenceIndicator s)
    (silenceDetected s) (logs s) (isProcessing s) (result s) (command s)
    (commandHistory s) (wire s).

Definition set_isSleeping (s : State) (v : bool) : State :=
  mkState (ws s) (audioBuffer s) (debugAudioData s) (sessionId s)
    (chunkCounter s) (totalBytes s) (latencySum s) (latencyCount s)
    (isProcessingAudio s) v (silenceDetectionBuffer s) (lastSpeechTime s)
    (hasSpeechInBuffer s) (isConnected s) (isRecording s) (audioStats s)
    (transcription s) (sessionInfo s) (audioLevel s) (confidenceIndicator s)
    (silenceDetected s) (logs s) (isProcessing s) (result s) (command s)
    (commandHistory s) (wire s).

Definition set_silenceDetectionBuffer (s : State) (v : list Q) : State :=
  mkState (ws s) (audioBuffer s) (debugAudioData s) (sessionId s)
    (chunkCounter s) (totalBytes s) (latencySum s) (latencyCount s)
    (isProcessingAudio s) (isSleeping s) v (lastSpeechTime s)
    (hasSpeechInBuffer s) (isConnected s) (isRecording s) (audioStats s)
    (transcription s) (sessionInfo s) (audioLevel s) (confidenceIndicator s)
    (silenceDetected s) (logs s) (isProcessing s) (result s) (command s)
    (commandHistory s) (wire s).

Definition set_lastSpeechTime (s : State) (v : Z) : State :=
  mkState (ws s) (audioBuffer s) (debugAudioData s) (sessionId s)
    (chunkCounter s) (totalBytes s) (latencySum s) (latencyCount s)
    (isProcessingAudio s) (isSleeping s) (silenceDetectionBuffer s) v
    (hasSpeechInBuffer s) (isConnected s) (isRecording s) (audioStats s)
    (transcription s) (sessionInfo s) (audioLevel s) (confidenceIndicator s)
    (silenceDetected s) (logs s) (isProcessing s) (result s) (command s)
    (commandHistory s) (wire s).

Definition set_hasSpeechInBuffer (s : State) (v : bool) : State :=
  mkState (ws s) (audioBuffer s) (debugAudioData s) (sessionId s)
    (chunkCounter s) (totalBytes s) (latencySum s) (latencyCount s)
    (isProcessingAudio s) (isSleeping s) (silenceDetectionBuffer s)
    (lastSpeechTime s) v (isConnected s) (isRecording s) (audioStats s)
    (transcription s) (sessionInfo s) (audioLevel s) (confidenceIndicator s)
    (silenceDetected s) (logs s) (isProcessing s) (result s) (command s)
    (commandHistory s) (wire s).

Definition set_isConnected (s : State) (v : bool) : State :=
  mkState (ws s) (audioBuffer s) (debugAudioData s) (sessionId s)
    (chunkCounter s) (totalBytes s) (latencySum s) (latencyCount s)
    (isProcessingAudio s) (isSleeping s) (silenceDetectionBuffer s)
    (lastSpeechTime s) (hasSpeechInBuffer s) v (isRecording s)
    (audioStats s) (transcription s) (sessionInfo s) (audioLevel s)
    (confidenceIndicator s) (silenceDetected s) (logs s) (isProcessing s)
    (result s) (command s) (commandHistory s) (wire s).

Definition set_isRecording (s : State) (v : bool) : State :=
  mkState (ws s) (audioBuffer s) (debugAudioData s) (sessionId s)
    (chunkCounter s) (totalBytes s) (latencySum s) (latencyCount s)
    (isProcessingAudio s) (isSleeping s) (silenceDetectionBuffer s)
    (lastSpeechTime s) (hasSpeechInBuffer s) (isConnected s) v
    (audioStats s) (transcription s) (sessionInfo s) (audioLevel s)
    (confidenceIndicator s) (silenceDetected s) (logs s) (isProcessing s)
    (result s) (command s) (commandHistory s) (wire s).

Definition set_audioStats (s : State) (v : AudioStats) : State :=
  mkState (ws s) (audioBuffer s) (debugAudioData s) (sessionId s)
    (chunkCounter s) (totalBytes s) (latencySum s) (latencyCount s)
    (isProcessingAudio s) (isSleeping s) (silenceDetectionBuffer s)
    (lastSpeechTime s) (hasSpeechInBuffer s) (isConnected s) (isRecording s)
    v (transcription s) (sessionInfo s) (audioLevel s)
    (confidenceIndicator s) (silenceDetected s) (logs s) (isProcessing s)
    (result s) (command s) (commandHistory s) (wire s).

Definition set_transcription (s : State) (v : string) : State :=
  mkState (ws s) (audioBuffer s) (debugAudioData s) (sessionId s)
    (chunkCounter s) (totalBytes s) (latencySum s) (latencyCount s)
    (isProcessingAudio s) (isSleeping s) (silenceDetectionBuffer s)
    (lastSpeechTime s) (hasSpeechInBuffer s) (isConnected s) (isRecording s)
    (audioStats s) v (sessionInfo s) (audioLevel s) (confidenceIndicator s)
    (silenceDetected s) (logs s) (isProcessing s) (result s) (command s)
    (commandHistory s) (wire s).

Definition set_sessionInfo (s : State) (v : option SessionInfo) : State :=
  mkState (ws s) (audioBuffer s) (debugAudioData s) (sessionId s)
    (chunkCounter s) (totalBytes s) (latencySum s) (latencyCount s)
    (isProcessingAudio s) (isSleeping s) (silenceDetectionBuffer s)
    (lastSpeechTime s) (hasSpeechInBuffer s) (isConnected s) (isRecording s)
    (audioStats s) (transcription s) v (audioLevel s)
    (confidenceIndicator s) (silenceDetected s) (logs s) (isProcessing s)
    (result s) (command s) (commandHistory s) (wire s).

Definition set_audioLevel (s : State) (v : Q) : State :=
  mkState (ws s) (audioBuffer s) (debugAudioData s) (sessionId s)
    (chunkCounter s) (totalBytes s) (latencySum s) (latencyCount s)
    (isProcessingAudio s) (isSleeping s) (silenceDetectionBuffer s)
    (lastSpeechTime s) (hasSpeechInBuffer s) (isConnected s) (isRecording s)
    (audioStats s) (transcription s) (sessionInfo s) v
    (confidenceIndicator s) (silenceDetected s) (logs s) (isProcessing s)
    (result s) (command s) (commandHistory s) (wire s).

Definition set_confidenceIndicator (s : State) (v : string) : State :=
  mkState (ws s) (audioBuffer s) (debugAudioData s) (sessionId s)
    (chunkCounter s) (totalBytes s) (latencySum s) (latencyCount s)
    (isProcessingAudio s) (isSleeping s) (silenceDetectionBuffer s)
    (lastSpeechTime s) (hasSpeechInBuffer s) (isConnected s) (isRecording s)
    (audioStats s) (transcription s) (sessionInfo s) (audioLevel s) v
    (silenceDetected s) (logs s) (isProcessing s) (result s) (command s)
    (commandHistory s) (wire s).

Definition set_silenceDetected (s : State) (v : bool) : State :=
  mkState (ws s) (audioBuffer s) (debugAudioData s) (sessionId s)
    (chunkCounter s) (totalBytes s) (latencySum s) (latencyCount s)
    (isProcessingAudio s) (isSleeping s) (silenceDetectionBuffer s)
    (lastSpeechTime s) (hasSpeechInBuffer s) (isConnected s) (isRecording s)
    (audioStats s) (transcription s) (sessionInfo s) (audioLevel s)
    (confidenceIndicator s) v (logs s) (isProcessing s) (result s)
    (command s) (commandHistory s) (wire s).

Definition set_logs (s : State) (v : list LogEntry) : State :=
  mkState (ws s) (audioBuffer s) (debugAudioData s) (sessionId s)
    (chunkCounter s) (totalBytes s) (latencySum s) (latencyCount s)
    (isProcessingAudio s) (isSleeping s) (silenceDetectionBuffer s)
    (lastSpeechTime s) (hasSpeechInBuffer s) (isConnected s) (isRecording s)
    (audioStats s) (transcription s) (sessionInfo s) (audioLevel s)
    (confidenceIndicator s) (silenceDetected s) v (isProcessing s)
    (result s) (command s) (commandHistory s) (wire s).

Definition set_isProcessing (s : State) (v : bool) : State :=
  mkState (ws s) (audioBuffer s) (debugAudioData s) (sessionId s)
    (chunkCounter s) (totalBytes s) (latencySum s) (latencyCount s)
    (isProcessingAudio s) (isSleeping s) (silenceDetectionBuffer s)
    (lastSpeechTime s) (hasSpeechInBuffer s) (isConnected s) (isRecording s)
    (audioStats s) (transcription s) (sessionInfo s) (audioLevel s)
    (confidenceIndicator s) (silenceDetected s) (logs s) v (result s)
    (command s) (commandHistory s) (wire s).

Definition set_result (s : State) (v : option CommandResponse) : State :=
  mkState (ws s) (audioBuffer s) (debugAudioData s) (sessionId s)
    (chunkCounter s) (totalBytes s) (latencySum s) (latencyCount s)
    (isProcessingAudio s) (isSleeping s) (silenceDetectionBuffer s)
    (lastSpeechTime s) (hasSpeechInBuffer s) (isConnected s) (isRecording s)
    (audioStats s) (transcription s) (sessionInfo s) (audioLevel s)
    (confidenceIndicator s) (silenceDetected s) (logs s) (isProcessing s) v
    (command s) (commandHistory s) (wire s).

Definition set_command (s : State) (v : string) : State :=
  mkState (ws s) (audioBuffer s) (debugAudioData s) (sessionId s)
    (chunkCounter s) (totalBytes s) (latencySum s) (latencyCount s)
    (isProcessingAudio s) (isSleeping s) (silenceDetectionBuffer s)
    (lastSpeechTime s) (hasSpeechInBuffer s) (isConnected s) (isRecording s)
    (audioStats s) (transcription s) (sessionInfo s) (audioLevel s)
    (confidenceIndicator s) (silenceDetected s) (logs s) (isProcessing s)
    (result s) v (commandHistory s) (wire s).

Definition set_commandHistory (s : State) (v : list string) : State :=
  mkState (ws s) (audioBuffer s) (debugAudioData s) (sessionId s)
    (chunkCounter s) (totalBytes s) (latencySum s) (latencyCount s)
    (isProcessingAudio s) (isSleeping s) (silenceDetectionBuffer s)
    (lastSpeechTime s) (hasSpeechInBuffer s) (isConnected s) (isRecording s)
    (audioStats s) (transcription s) (sessionInfo s) (audioLevel s)
    (confidenceIndicator s) (silenceDetected s) (logs s) (isProcessing s)
    (result s) (command s) v (wire s).

Definition set_wire (s : State) (v : list ClientEvent) : State :=
  mkState (ws s) (audioBuffer s) (debugAudioData s) (sessionId s)
    (chunkCounter s) (totalBytes s) (latencySum s) (latencyCount s)
    (isProcessingAudio s) (isSleeping s) (silenceDetectionBuffer s)
    (lastSpeechTime s) (hasSpeechInBuffer s) (isConnected s) (isRecording s)
    (audioStats s) (transcription s) (sessionInfo s) (audioLevel s)
    (confidenceIndicator s) (silenceDetected s) (logs s) (isProcessing s)
    (result s) (command s) (commandHistory s) v.
Definition defaultConfig : AudioConfig :=
  {| serverUrl := "ws://localhost:3000/ws";
     chunkSize := 250;
     audioQuality := 16000;
     silenceThreshold := 5 # 1000;
     autoCommitDelay := 1500 |}.

Definition initialState : State :=
  {| ws := None;
     audioBuffer := [];
     debugAudioData := [];
     sessionId := None;
     chunkCounter := 0;
     totalBytes := 0;
     latencySum := 0;
     latencyCount := 0;
     isProcessingAudio := false;
     isSleeping := false;
     silenceDetectionBuffer := [];
     lastSpeechTime := 0;
     hasSpeechInBuffer := false;
     isConnected := false;
     isRecording := false;
     audioStats := {| st_totalChunks := 0; st_totalBytes := 0;
                      st_latencySum := 0; st_latencyCount := 0;
                      st_bufferSize := 0 |};
     transcription := "Ready to receive transcriptions...";
     sessionInfo := None;
     audioLevel := 0;
     confidenceIndicator := EmptyString;
     silenceDetected := false;
     logs := [ {| message := "Audio streaming client initialized"; type := info |};
               {| message := "Click 'Connect to Server' to begin"; type := info |} ];
     isProcessing := false;
     result := None;
     command := EmptyString;
     commandHistory := [];
     wire := [] |}.

Definition silenceDetectionWindow : nat := 10.

(** ** Small helpers for JavaScript operations *)

Definition string_of_Z (z : Z) : string := NilZero.string_of_int (Z.to_int z).

Definition Qlt_bool (a b : Q) : bool := negb (Qle_bool b a).

Definition Qlen {A} (l : list A) : Q := inject_Z (Z.of_nat (List.length l)).

(** [new Int16Array(xs)] converts each number with ToInt16: truncate towards
    zero, reduce modulo 2^16, read as a signed 16-bit value. *)
Definition truncQ (q : Q) : Z := Z.quot (Qnum q) (Zpos (Qden q)).

Definition ToInt16 (q : Q) : Z :=
  let m := truncQ q mod 65536 in
  if 32768 <=? m then m - 65536 else m.

(** [const sample = Math.max(-1, Math.min(1, audioData[i]));
     pcmData.push(sample * 32767);] *)
Definition pcmSample (x : Q) : Q := (Qmax (-1) (Qmin 1 x) * 32767)%Q.

(** The two bytes written for one 16-bit value, low byte first. *)
Definition int16Bytes (v : Z) : list Z :=
  [Z.land v 255; Z.land (Z.shiftr v 8) 255].

(** [command.trim()] is empty *)
Definition isSpace (c : ascii) : bool :=
  let n := nat_of_ascii c in
  (Nat.eqb n 32 || (Nat.leb 9 n && Nat.leb n 13))%bool.

Fixpoint trimIsEmpty (s : string) : bool :=
  match s with
  | EmptyString => true
  | String c r => isSpace c && trimIsEmpty r
  end.

(** [wsRef.current && wsRef.current.readyState === WebSocket.OPEN] *)
Definition isOpen (w : option ReadyState) : bool :=
  match w with Some OPEN => true | _ => false end.

Definition wsOpen (s : State) : bool := isOpen (ws s).

(** [wsRef.current.send(JSON.stringify(event))] *)
Definition send (event : ClientEvent) (s : State) : State :=
  set_wire s (wire s ++ [event]).

(** ** The callbacks of the component *)

Definition log (msg : string) (t : LogType) (s : State) : State :=
  set_logs s (firstn 100 ({| message := msg; type := t |} :: logs s)).

Definition setSleeping (sleeping : bool) (s : State) : State :=
  if Bool.eqb (isSleeping s) sleeping then s
  else
    let s := set_isSleeping s sleeping in
    if sleeping then log "Entering sleep mode due to prolonged silence" info s
    else log "Waking up from sleep mode" info s.

Definition setProcessing (processing : bool) (s : State) : State :=
  if Bool.eqb (isProcessingAudio s) processing then s
  else
    let s := set_isProcessingAudio s processing in
    if processing then
      set_transcription
        (log "Entering processing mode - pausing audio capture" info s)
        "Processing audio..."
    else log "Exiting processing mode - resuming audio capture" info s.

Definition bufferSizeSeconds (cfg : AudioConfig) (s : State) : Q :=
  (Qlen (audioBuffer s) / inject_Z (audioQuality cfg * 2))%Q.

Definition updateStats (cfg : AudioConfig) (s : State) : State :=
  set_audioStats s
    {| st_totalChunks := chunkCounter s;
       st_totalBytes := totalBytes s;
       st_latencySum := latencySum s;
       st_latencyCount := latencyCount s;
       st_bufferSize := bufferSizeSeconds cfg s |}.

Definition sendAudioChunk (cfg : AudioConfig) (pcmData : list Q) (s : State)
  : State :=
  if negb (wsOpen s) || isProcessingAudio s then s
  else
    let int16Data := map ToInt16 pcmData in
    let bytes := flat_map int16Bytes int16Data in
    let s := send (input_audio_buffer_append bytes) s in
    let s := set_chunkCounter s (chunkCounter s + 1) in
    let s := set_totalBytes s (totalBytes s + Z.of_nat (List.length bytes)) in
    updateStats cfg s.

Definition commitAudioBuffer (cfg : AudioConfig) (s : State) : State :=
  if negb (wsOpen s) || isProcessingAudio s then
    log "Cannot commit: not connected or already processing" warning s
  else if Nat.eqb (List.length (audioBuffer s)) 0 then
    log "No audio data to commit" warning s
  else
    (* audioBufferRef.current.splice(0) empties the buffer and yields its
       former content, which is sent as the last chunk *)
    let s := if Nat.ltb 0 (List.length (audioBuffer s))
             then sendAudioChunk cfg (audioBuffer s) (set_audioBuffer s [])
             else s in
    let s := send input_audio_buffer_commit s in
    let s := log "Audio buffer committed for transcription" info s in
    let s := setProcessing true s in
    set_hasSpeechInBuffer s false.

Definition clearAudioBuffer (cfg : AudioConfig) (s : State) : State :=
  if negb (wsOpen s) then s
  else
    let s := set_audioBuffer s [] in
    let s := set_hasSpeechInBuffer s false in
    let s := send input_audio_buffer_clear s in
    let s := log "Audio buffer cleared" info s in
    let s := if isProcessingAudio s then setProcessing false s else s in
    updateStats cfg s.

Record SilenceInfo := {
  isSilent : bool;
  avgRms : Q;
  timeSinceLastSpeech : Z
}.

(** [silenceDetectionBufferRef.current.push(rms)] followed by the [shift]
    when the window is exceeded *)
Definition pushWindow (rms : Q) (buf : list Q) : list Q :=
  let buf := buf ++ [rms] in
  if Nat.ltb silenceDetectionWindow (List.length buf) then tl buf else buf.

Definition mean (buf : list Q) : Q :=
  (fold_left (fun sum val => sum + val) buf 0 / Qlen buf)%Q.

(** The guard of the auto-commit branch of [detectSilence]. *)
Definition autoCommitDue (cfg : AudioConfig) (s : State) (timeSince : Z)
  : bool :=
  (0 <? autoCommitDelay cfg)
  && (autoCommitDelay cfg <=? timeSince)
  && hasSpeechInBuffer s
  && negb (isProcessingAudio s).

(** A square root that is exact on squares of rationals; it stands in for
    [Math.sqrt] where a property is evaluated on concrete frames. *)
Definition Qsqrt (q : Q) : Q :=
  let r := Qred q in Z.sqrt (Qnum r) # Pos.sqrt (Qden r).

Section WithSqrt.

(** [Math.sqrt] *)
Variable sqrt : Q -> Q.

Definition rmsOf (audioData : list Q) : Q :=
  sqrt (fold_left (fun sum sample => sum + sample * sample) audioData 0
        / Qlen audioData)%Q.

Definition detectSilence (cfg : AudioConfig) (now : Z) (audioData : list Q)
  (s : State) : State * SilenceInfo :=
  let rms := rmsOf audioData in
  let s := set_silenceDetectionBuffer s
             (pushWindow rms (silenceDetectionBuffer s)) in
  let avg := mean (silenceDetectionBuffer s) in
  let silent := Qlt_bool avg (silenceThreshold cfg) in
  let currentTime := now in
  let timeSince := currentTime - lastSpeechTime s in
  let s :=
    if negb silent then
      let s := set_lastSpeechTime s currentTime in
      let s := set_hasSpeechInBuffer s true in
      setSleeping false s
    else if autoCommitDue cfg s timeSince then
      commitAudioBuffer cfg
        (log ("Auto-committing after " ++ string_of_Z (autoCommitDelay cfg)
              ++ "ms of silence")%string info s)
    else if (1000 <=? timeSince) && negb (hasSpeechInBuffer s) then
      setSleeping true s
    else s in
  let s := set_silenceDetected s (silent && (500 <? timeSince)) in
  (s, {| isSilent := silent; avgRms := avg; timeSinceLastSpeech := timeSince |}).

Definition processAudioData (cfg : AudioConfig) (now : Z) (audioData : list Q)
  (s : State) : State :=
  let (s, silenceInfo) := detectSilence cfg now audioData s in
  let s := set_audioLevel s (avgRms silenceInfo) in
  (* Skip audio buffering if in sleep mode or processing mode *)
  if isSleeping s || isProcessingAudio s then s
  else
    let pcmData := map pcmSample audioData in
    let s := set_audioBuffer s (audioBuffer s ++ pcmData) in
    let s := set_debugAudioData s (debugAudioData s ++ pcmData) in
    set_audioStats s
      {| st_totalChunks := st_totalChunks (audioStats s);
         st_totalBytes := st_totalBytes (audioStats s);
         st_latencySum := st_latencySum (audioStats s);
         st_latencyCount := st_latencyCount (audioStats s);
         st_bufferSize := bufferSizeSeconds cfg s |}.

(** [audioWorkletNodeRef.current.port.onmessage] for an ['audio-data']
    message (the analyser fallback applies the same two tests) *)
Definition onAudioData (cfg : AudioConfig) (now : Z) (audioData : list Q)
  (s : State) : State :=
  if isRecording s && negb (isProcessingAudio s)
  then processAudioData cfg now audioData s
  else s.

(** The double-quote character used inside template strings. *)
Definition dquote : string := String (ascii_of_nat 34) EmptyString.

Definition processVoiceCommand (command : string) (s : State) : State :=
  if trimIsEmpty command then
    set_result s
      (Some {| cr_success := false;
               cr_message := "No speech detected. Please try again." |})
  else
    let s := set_isProcessing s true in
    let s := set_result s
               (Some {| cr_success := true;
                        cr_message := ("Voice command processed: " ++ dquote
                                       ++ command ++ dquote)%string |}) in
    let s := log ("Voice command executed: " ++ dquote ++ command
                  ++ dquote)%string success s in
    set_isProcessing s false.

Definition messageType (message : ServerMessage) : string :=
  match message with
  | session_created _ _ => "session.created"
  | session_updated => "session.updated"
  | input_audio_buffer_committed => "input_audio_buffer.committed"
  | response_created _ => "response.created"
  | response_audio_delta => "response.audio.delta"
  | response_done _ _ => "response.done"
  | server_error _ => "error"
  | unknown_message t => t
  end.

(** [message.session.model || 'Whisper'] *)
Definition modelOrDefault (m : option string) : string :=
  match m with
  | Some (String c r) => String c r
  | _ => "Whisper"
  end.

(** The transcript that [response.done] publishes: the text of the first
    content part of the first output item, when all of them are present and
    the text is not empty. *)
Definition transcribedText (output : option (list OutputItem))
  : option string :=
  match output with
  | Some (item :: _) =>
      match content item with
      | Some (part :: _) =>
          match text part with
          | Some (String c r) => Some (String c r)
          | _ => None
          end
      | _ => None
      end
  | _ => None
  end.

(** [startTime] is the clock read on entry to the handler, [now] the clock
    read inside the ['response.done'] case. *)
Definition handleServerMessage (cfg : AudioConfig) (startTime now : Z)
  (message : ServerMessage) (s : State) : State :=
  let s := log ("Received: " ++ messageType message)%string info s in
  match message with
  | session_created sid smodel =>
      let s := set_sessionId s (Some sid) in
      let s := set_sessionInfo s
                 (Some {| id := sid; model := modelOrDefault smodel |}) in
      log ("Session created: " ++ sid)%string success s
  | session_updated => log "Session configuration updated" success s
  | input_audio_buffer_committed =>
      let s := log "Audio buffer committed for processing" success s in
      setProcessing true s
  | response_created rid =>
      log ("Response created: " ++ rid)%string success s
  | response_audio_delta => log "Received audio response delta" info s
  | response_done output usage =>
      let responseTime := now - startTime in
      let s := set_latencySum s (latencySum s + responseTime) in
      let s := set_latencyCount s (latencyCount s + 1) in
      let s := setProcessing false s in
      let s := set_hasSpeechInBuffer s false in
      let s :=
        match transcribedText output with
        | Some t =>
            let s := set_transcription s t in
            let s := set_command s t in
            let s := set_commandHistory s (t :: firstn 9 (commandHistory s)) in
            let s := match usage with
                     | Some n =>
                         set_confidenceIndicator s
                           ("(" ++ string_of_Z n ++ " tokens)")%string
                     | None => s
                     end in
            processVoiceCommand t s
        | None => s
        end in
      let s := log ("Transcription completed in " ++ string_of_Z responseTime
                    ++ "ms")%string success s in
      updateStats cfg s
  | server_error msg =>
      let s := log ("Server error: " ++ msg)%string error s in
      let s := setProcessing false s in
      set_result s
        (Some {| cr_success := false;
                 cr_message := ("Server error: " ++ msg)%string |})
  | unknown_message t =>
      log ("Unknown message type: " ++ t)%string warning s
  end.

(** [connect]: a socket is created, in state CONNECTING. *)
Definition connect (cfg : AudioConfig) (s : State) : State :=
  let s := log ("Connecting to " ++ serverUrl cfg ++ "...")%string info s in
  set_ws s (Some CONNECTING).

(** [wsRef.current.onopen] *)
Definition onopen (s : State) : State :=
  let s := set_isConnected s true in
  log "Connected to WebSocket server" success s.

(** [wsRef.current.onclose] *)
Definition onclose (code : Z) (reason : string) (s : State) : State :=
  let s := set_isConnected s false in
  let s := set_isRecording s false in
  let s := setProcessing false s in
  log ("Connection closed: " ++ string_of_Z code ++ " - " ++ reason)%string
      warning s.

(** [wsRef.current.onerror] *)
Definition onerror (s : State) : State :=
  log "WebSocket error occurred" error s.

(** [ws.close()]: an open or connecting socket starts closing. *)
Definition wsClose (r : ReadyState) : ReadyState :=
  match r with
  | CONNECTING | OPEN => CLOSING
  | CLOSING => CLOSING
  | CLOSED => CLOSED
  end.

Definition disconnect (s : State) : State :=
  let s := match ws s with
           | Some r => set_ws s (Some (wsClose r))
           | None => s
           end in
  let s := set_isConnected s false in
  let s := set_isRecording s false in
  let s := setProcessing false s in
  setSleeping false s.

(** [startRecording] and the effect it triggers, [startAudioProcessing],
    along the path on which the microphone and the worklet are available. *)
Definition startRecording (now : Z) (s : State) : State :=
  let s := set_isRecording s true in
  let s := log "Requesting microphone access..." info s in
  let s := log "Audio worklet processor loaded successfully" info s in
  let s := set_hasSpeechInBuffer s false in
  let s := set_lastSpeechTime s now in
  log "Recording started with AudioWorklet" success s.

Definition stopRecording (s : State) : State :=
  let s := set_isRecording s false in
  let s := setSleeping false s in
  let s := setProcessing false s in
  log "Recording stopped" warning s.

(** [startAudioChunking]: the chunk length, and one run of the timer
    callback [sendChunk], which yields the delay until its next run. *)
Definition samplesPerChunk (cfg : AudioConfig) : Z :=
  audioQuality cfg * chunkSize cfg / 1000.

Definition sendChunk (cfg : AudioConfig) (s : State) : State * option Z :=
  if isRecording s then
    let n := samplesPerChunk cfg in
    let s :=
      if negb (isProcessingAudio s) && negb (isSleeping s)
         && (n <=? Z.of_nat (List.length (audioBuffer s)))
      then sendAudioChunk cfg (firstn (Z.to_nat n) (audioBuffer s))
             (set_audioBuffer s (skipn (Z.to_nat n) (audioBuffer s)))
      else s in
    let nextInterval :=
      if isSleeping s then Z.max (chunkSize cfg * 4) 1000
      else if isProcessingAudio s then Z.min (chunkSize cfg) 100
      else chunkSize cfg in
    (s, Some nextInterval)
  else (s, None).

(** ** The component as a transition system

    What can happen to the component: a button is pressed, the socket
    reports an event, a frame arrives from the audio worklet, the chunk timer
    fires.  Socket events are delivered only in the socket states in which a
    browser delivers them. *)
Inductive Event :=
| EvConnect
| EvDisconnect
| EvStartRecording (now : Z)
| EvStopRecording
| EvCommitAudio
| EvClearBuffer
| EvWsOpen
| EvWsMessage (startTime now : Z) (message : ServerMessage)
| EvWsError
| EvWsClose (code : Z) (reason : string)
| EvAudioData (now : Z) (audioData : list Q)
| EvChunkTimer.

Definition step (cfg : AudioConfig) (ev : Event) (s : State) : State :=
  match ev with
  | EvConnect => connect cfg s
  | EvDisconnect => disconnect s
  | EvStartRecording now => startRecording now s
  | EvStopRecording => stopRecording s
  | EvCommitAudio => commitAudioBuffer cfg s
  | EvClearBuffer => clearAudioBuffer cfg s
  | EvWsOpen =>
      match ws s with
      | Some CONNECTING => onopen (set_ws s (Some OPEN))
      | _ => s
      end
  | EvWsMessage startTime now message =>
      match ws s with
      | Some OPEN => handleServerMessage cfg startTime now message s
      | _ => s
      end
  | EvWsError =>
      match ws s with
      | Some _ => onerror s
      | None => s
      end
  | EvWsClose code reason =>
      match ws s with
      | Some CLOSED | None => s
      | Some _ => onclose code reason (set_ws s (Some CLOSED))
      end
  | EvAudioData now audioData => onAudioData cfg now audioData s
  | EvChunkTimer => fst (sendChunk cfg s)
  end.

Fixpoint run (cfg : AudioConfig) (evs : list Event) (s : State) : State :=
  match evs with
  | [] => s
  | ev :: evs => run cfg evs (step cfg ev s)
  end.

(** ** Observations on a run *)

(** A silent frame: the test [avgRms < audioConfig.silenceThreshold] of
    [detectSilence], on the window as it is once the frame's RMS is in. *)
Definition frameSilent (cfg : AudioConfig) (audioData : list Q) (s : State)
  : bool :=
  Qlt_bool (mean (pushWindow (rmsOf audioData) (silenceDetectionBuffer s)))
           (silenceThreshold cfg).

Definition isAppend (e : ClientEvent) : bool :=
  match e with input_audio_buffer_append _ => true | _ => false end.

Definition isCommit (e : ClientEvent) : bool :=
  match e with input_audio_buffer_commit => true | _ => false end.

Definition commitCount (l : list ClientEvent) : nat :=
  List.length (filter isCommit l).

(** The events that one step hands to the socket. *)
Definition sent (cfg : AudioConfig) (ev : Event) (s : State)
  : list ClientEvent :=
  skipn (List.length (wire s)) (wire (step cfg ev s)).

(** [s'] extends the wire of [s], and whatever append event it adds was
    sent from a state with the socket open and the processing flag down. *)
Definition emitsGuarded (s s' : State) : Prop :=
  exists l, wire s' = wire s ++ l
            /\ forall audio, In (input_audio_buffer_append audio) l ->
                             wsOpen s = true /\ isProcessingAudio s = false.





(** The part of the state that describes the connection and the remote
    session. *)
Definition connection (s : State)
  : option ReadyState * bool * option string * option SessionInfo :=
  (ws s, isConnected s, sessionId s, sessionInfo s).

Definition isConnectEvent (ev : Event) : bool :=
  match ev with EvConnect => true | _ => false end.

(** An explicit disconnect, or the loss of a connection that is not closed
    yet. *)
Definition isDisconnectOf (s : State) (ev : Event) : bool :=
  match ev with
  | EvDisconnect => true
  | EvWsClose _ _ =>
      match ws s with
      | Some CLOSED | None => false
      | Some _ => true
      end
  | _ => false
  end.

(** A socket that is open or may still open. *)
Definition isLive (w : option ReadyState) : bool :=
  match w with
  | Some CONNECTING | Some OPEN => true
  | _ => false
  end.

(** [commitAudioBuffer] goes through: neither of its two early returns is
    taken. *)
Definition commitAccepted (s : State) : bool :=
  negb (negb (wsOpen s) || isProcessingAudio s)
  && negb (Nat.eqb (List.length (audioBuffer s)) 0).


(** The last [n] elements of a list. *)
Definition lastn {A} (n : nat) (l : list A) : list A :=
  skipn (List.length l - n) l.

(** ** Basic facts about the callbacks *)

(** ** Scenarios

    Frames and event sequences on which the properties below are
    evaluated.  [smallConfig] makes a chunk four samples long, the length of
    the frames used here. *)
Definition smallConfig : AudioConfig :=
  {| serverUrl := "ws://localhost:3000/ws";
     chunkSize := 250;
     audioQuality := 16;
     silenceThreshold := 5 # 1000;
     autoCommitDelay := 1500 |}.

(** RMS 1/2 *)
Definition loudFrame : list Q := [1 # 2; -1 # 2; 1 # 2; -1 # 2].


(** RMS 1/1000 *)
Definition quietFrame : list Q :=
  [1 # 1000; -1 # 1000; 1 # 1000; -1 # 1000].

Definition connected : list Event := [EvConnect; EvWsOpen].

Definition recording : list Event := connected ++ [EvStartRecording 0].



(** ** The audio worklet processor

    [AudioProcessorWorklet], the class whose source text
    [createAudioWorkletProcessor] hands to the audio context.  It collects
    the samples of the render quanta in a buffer of [bufferSize] slots and
    posts the buffer to the main thread each time it is full.  [process]
    always returns [true]; here it returns the processor and the
    [audioData] of the messages it posted, oldest first. *)
Record AudioProcessorWorklet := {
  bufferSize : nat;
  buffer : list Q;
  bufferIndex : nat
}.

(** [constructor()] *)
Definition newAudioProcessorWorklet : AudioProcessorWorklet :=
  {| bufferSize := 4096; buffer := repeat 0%Q 4096; bufferIndex := 0 |}.

(** [a[i] = x] on a typed array: a write past the end is ignored. *)
Fixpoint writeAt (i : nat) (x : Q) (a : list Q) : list Q :=
  match a, i with
  | [], _ => []
  | _ :: t, O => x :: t
  | h :: t, S i => h :: writeAt i x t
  end.

(** The body of the loop of [process], for one sample. *)
Definition storeSample (st : AudioProcessorWorklet * list (list Q)) (x : Q)
  : AudioProcessorWorklet * list (list Q) :=
  let (w, posted) := st in
  let b := writeAt (bufferIndex w) x (buffer w) in
  let i := S (bufferIndex w) in
  if Nat.leb (bufferSize w) i then
    ({| bufferSize := bufferSize w;
        buffer := map (fun _ => 0%Q) b;
        bufferIndex := 0 |},
     posted ++ [b])
  else
    ({| bufferSize := bufferSize w; buffer := b; bufferIndex := i |}, posted).

(** [process(inputs, outputs, parameters)], given [inputs[0]], the list of
    the channels of the first input. *)
Definition process (w : AudioProcessorWorklet) (input : list (list Q))
  : AudioProcessorWorklet * list (list Q) :=
  match input with
  | channelData :: _ => fold_left storeSample channelData (w, [])
  | [] => (w, [])
  end.

(** The samples that are stored and not posted yet. *)
Definition pendingSamples (w : AudioProcessorWorklet) : list Q :=
  firstn (bufferIndex w) (buffer w).

Definition workletReady (w : AudioProcessorWorklet) : Prop :=
  List.length (buffer w) = bufferSize w /\ (bufferIndex w < bufferSize w)%nat.

(** ** Visualization and displayed statistics *)

(** One bar of [updateVisualization]: the mean absolute amplitude of the
    chunk, scaled by 300 and capped at 60.  For an empty chunk the mean is
    0/0, and the bar is NaN: [None]. *)
Definition barHeight (chunk : list Q) : option Q :=
  let sum := fold_left (fun sum x => sum + Qabs x)%Q chunk 0%Q in
  match chunk with
  | [] => None
  | _ :: _ =>
      let average := (sum / Qlen chunk)%Q in
      Some (Qmin (average * 300) 60)
  end.

(** [updateVisualization]: the new content of [audioLevelHistoryRef], given
    the old one ([bars]) and a frame. *)
Definition updateVisualization (bars audioData : list Q) : list (option Q) :=
  let chunkSize := (List.length audioData / List.length bars)%nat in
  map (fun i =>
         let start := (i * chunkSize)%nat in
         barHeight (firstn chunkSize (skipn start audioData)))
      (seq 0 (List.length bars)).

(** [Math.round]: the nearest integer, halves upwards. *)
Definition Math_round (q : Q) : Z := Qfloor (q + (1 # 2)).

Definition getAvgLatency (s : State) : Z :=
  if 0 <? st_latencyCount (audioStats s)
  then Math_round (inject_Z (st_latencySum (audioStats s))
                   / inject_Z (st_latencyCount (audioStats s)))
  else 0.

(** The initial content of [audioLevelHistoryRef]. *)
Definition initialLevels : list Q := repeat 0%Q 50.

(** The default configuration with auto-commit switched off. *)
Definition manualConfig : AudioConfig :=
  {| serverUrl := "ws://localhost:3000/ws";
     chunkSize := 250;
     audioQuality := 16000;
     silenceThreshold := 5 # 1000;
     autoCommitDelay := 0 |}.

(** ** Further observations *)

(** The bytes that [sendAudioChunk] puts on the wire for a chunk. *)
Definition encodeSamples (pcmData : list Q) : list Z :=
  flat_map int16Bytes (map ToInt16 pcmData).

(** The 16-bit value that two bytes stand for, low byte first. *)
Definition int16OfBytes (lo hi : Z) : Z :=
  if 128 <=? hi then lo + 256 * hi - 65536 else lo + 256 * hi.

Definition payload (e : ClientEvent) : list Z :=
  match e with
  | input_audio_buffer_append audio => audio
  | _ => []
  end.

(** All audio bytes sent so far, in the order sent. *)
Definition payloadBytes (l : list ClientEvent) : list Z := flat_map payload l.

Definition appendCount (l : list ClientEvent) : nat :=
  List.length (filter isAppend l).

(** The counters of the statistics say what is on the wire. *)
Definition statsMatchWire (s : State) : Prop :=
  chunkCounter s = Z.of_nat (appendCount (wire s))
  /\ totalBytes s = Z.of_nat (List.length (payloadBytes (wire s))).


(** What the handling of a server message has no business with: the wire,
    the socket, and everything that capture and silence detection keep. *)
Definition audioSide (s : State) :=
  (wire s, ws s, audioBuffer s, debugAudioData s, isRecording s,
   isSleeping s, silenceDetectionBuffer s, lastSpeechTime s,
   chunkCounter s, totalBytes s).


Definition isCommitEvent (ev : Event) : bool :=
  match ev with EvCommitAudio => true | _ => false end.

(** Every commit event comes directly after an append event; [prev] says
    whether the event before the list is an append. *)
Fixpoint commitsFlushed (prev : bool) (l : list ClientEvent) : bool :=
  match l with
  | [] => true
  | e :: rest =>
      (if isCommit e then prev else true) && commitsFlushed (isAppend e) rest
  end.

(** Frames, timer ticks and commit requests. *)
Definition isCaptureEvent (ev : Event) : bool :=
  match ev with
  | EvAudioData _ _ | EvChunkTimer | EvCommitAudio => true
  | _ => false
  end.

(** The session id kept in the ref is the id of the session record. *)
Definition sessionAgrees (s : State) : Prop :=
  sessionId s = option_map id (sessionInfo s).

(** Silent frames and timer ticks only. *)
Definition idleEvent (cfg : AudioConfig) (ev : Event) (s : State) : Prop :=
  match ev with
  | EvAudioData _ audioData => frameSilent cfg audioData s = true
  | EvChunkTimer => True
  | _ => False
  end.

Fixpoint idleRun (cfg : AudioConfig) (evs : list Event) (s : State) : Prop :=
  match evs with
  | [] => True
  | ev :: rest => idleEvent cfg ev s /\ idleRun cfg rest (step cfg ev s)
  end.

(** Projections of a state built by setters reduce by computation; the
    callbacks themselves are unfolded only on request. *)
Ltac vc_simpl :=
  unfold wsOpen in *;
  cbn [ws audioBuffer debugAudioData sessionId chunkCounter totalBytes
       latencySum latencyCount isProcessingAudio isSleeping
       silenceDetectionBuffer lastSpeechTime hasSpeechInBuffer isConnected
       isRecording audioStats transcription sessionInfo audioLevel
       confidenceIndicator silenceDetected logs isProcessing result command
       commandHistory wire
       set_ws set_audioBuffer set_debugAudioData set_sessionId set_chunkCounter
       set_totalBytes set_latencySum set_latencyCount set_isProcessingAudio
       set_isSleeping set_silenceDetectionBuffer set_lastSpeechTime
       set_hasSpeechInBuffer set_isConnected set_isRecording set_audioStats
       set_transcription set_sessionInfo set_audioLevel
       set_confidenceIndicator set_silenceDetected set_logs set_isProcessing
       set_result set_command set_commandHistory set_wire
       fst snd negb andb orb] in *.

Lemma set_isSleeping_same s : set_isSleeping s (isSleeping s) = s.
Proof. now destruct s. Qed.

Lemma set_isProcessingAudio_same s :
  set_isProcessingAudio s (isProcessingAudio s) = s.
Proof. now destruct s. Qed.

Lemma set_logs_same s : set_logs s (logs s) = s.
Proof. now destruct s. Qed.

Lemma set_transcription_same s : set_transcription s (transcription s) = s.
Proof. now destruct s. Qed.

(** The two flag setters touch their flag, the log and (for the processing
    flag) the transcription panel, and nothing else. *)
Lemma setSleeping_shape sleeping s :
  exists l, setSleeping sleeping s = set_logs (set_isSleeping s sleeping) l.
Proof.
  unfold setSleeping. destruct (Bool.eqb (isSleeping s) sleeping) eqn:E.
  - apply Bool.eqb_prop in E. subst sleeping. exists (logs s).
    now rewrite set_isSleeping_same, set_logs_same.
  - destruct sleeping; eexists; reflexivity.
Qed.

Lemma setProcessing_shape processing s :
  exists l t,
    setProcessing processing s
    = set_transcription (set_logs (set_isProcessingAudio s processing) l) t.
Proof.
  unfold setProcessing.
  destruct (Bool.eqb (isProcessingAudio s) processing) eqn:E.
  - apply Bool.eqb_prop in E. subst processing.
    exists (logs s), (transcription s).
    now rewrite set_isProcessingAudio_same, set_logs_same,
      set_transcription_same.
  - destruct processing.
    + eexists. eexists. reflexivity.
    + eexists. exists (transcription s). unfold log. symmetry.
      exact (set_transcription_same _).
Qed.

Ltac shapes :=
  repeat match goal with
         | |- context [setSleeping ?b ?x] =>
             let l := fresh "l" in
             destruct (setSleeping_shape b x) as [l ->]
         | |- context [setProcessing ?b ?x] =>
             let l := fresh "l" in
             let t := fresh "t" in
             destruct (setProcessing_shape b x) as [l [t ->]]
         end.

Ltac unfold_callbacks :=
  unfold commitAudioBuffer, clearAudioBuffer, sendAudioChunk, updateStats,
    send, log in *.

Ltac split_ifs :=
  repeat (shapes; vc_simpl;
          match goal with
          | |- context [if ?b then _ else _] => destruct b eqn:?
          end).

Ltac callbacks := intros; unfold_callbacks; split_ifs; shapes; vc_simpl;
  try reflexivity; try congruence; auto.

Ltac unfold_handlers :=
  unfold step, onAudioData, processAudioData, detectSilence, autoCommitDue,
    sendChunk, handleServerMessage, processVoiceCommand, connect, onopen,
    onclose, onerror, disconnect, startRecording, stopRecording in *.

Ltac split_matches :=
  repeat (shapes; vc_simpl;
          match goal with
          | |- context [match ?x with _ => _ end] => destruct x eqn:?
          end).

Ltac handlers := intros; unfold_handlers; unfold_callbacks; split_matches;
  shapes; vc_simpl; try reflexivity; try congruence; auto.

Lemma wire_log msg t s : wire (log msg t s) = wire s.
Proof. reflexivity. Qed.

Lemma wire_setSleeping b s : wire (setSleeping b s) = wire s.
Proof. callbacks. Qed.

Lemma wire_setProcessing b s : wire (setProcessing b s) = wire s.
Proof. callbacks. Qed.

Lemma wsOpen_setSleeping b s : wsOpen (setSleeping b s) = wsOpen s.
Proof. callbacks. Qed.

Lemma wsOpen_setProcessing b s : wsOpen (setProcessing b s) = wsOpen s.
Proof. callbacks. Qed.

Lemma isProcessingAudio_setProcessing b s :
  isProcessingAudio (setProcessing b s) = b.
Proof. callbacks. Qed.

Lemma isSleeping_setSleeping b s : isSleeping (setSleeping b s) = b.
Proof. callbacks. Qed.

(** ** Conversion to 16-bit PCM *)

Lemma pcmSample_range (x : Q) : (-(32767) <= pcmSample x <= 32767)%Q.
Proof.
  unfold pcmSample.
  assert (Hlo : (-1 <= Qmax (-1) (Qmin 1 x))%Q) by apply Q.le_max_l.
  assert (Hhi : (Qmax (-1) (Qmin 1 x) <= 1)%Q).
  { apply Q.max_lub; [lra | apply Q.le_min_l]. }
  split; lra.
Qed.

Lemma truncQ_range (q : Q) :
  (-(32767) <= q <= 32767)%Q -> -32767 <= truncQ q <= 32767.
Proof.
  destruct q as [n d]. unfold Qle, truncQ. simpl. intros [Hlo Hhi].
  assert (Hd : 0 < Z.pos d) by lia.
  destruct (Z_le_gt_dec 0 n) as [Hn | Hn].
  - rewrite Z.quot_div_nonneg by lia. split.
    + pose proof (Z.div_pos n (Z.pos d)); lia.
    + apply Z.div_le_upper_bound; lia.
  - replace n with (- (- n)) by lia. rewrite Z.quot_opp_l by lia.
    rewrite Z.quot_div_nonneg by lia. split.
    + assert (- n / Z.pos d <= 32767) by (apply Z.div_le_upper_bound; lia).
      lia.
    + pose proof (Z.div_pos (- n) (Z.pos d)); lia.
Qed.

Lemma ToInt16_small (q : Q) :
  -32768 <= truncQ q <= 32767 -> ToInt16 q = truncQ q.
Proof.
  intros H. unfold ToInt16.
  destruct (Z_le_gt_dec 0 (truncQ q)) as [Hn | Hn].
  - rewrite Z.mod_small by lia.
    destruct (32768 <=? truncQ q) eqn:E; [apply Z.leb_le in E; lia | reflexivity].
  - assert (Hm : truncQ q mod 65536 = truncQ q + 65536).
    { symmetry. apply Z.mod_unique with (q := -1); lia. }
    rewrite Hm.
    destruct (32768 <=? truncQ q + 65536) eqn:E;
      [lia | apply Z.leb_gt in E; lia].
Qed.

(** C10.  Every 16-bit value that [sendAudioChunk] obtains from a sample
    that [processAudioData] put in the buffer lies between -32767 and 32767;
    -32768 does not occur.  The sample is clamped to [-1, 1] and scaled by
    32767 when it is buffered, and converted to an integer when it is
    sent. *)
Theorem pcm_values_in_range (audioData : list Q) :
  Forall (fun v => -32767 <= v <= 32767 /\ v <> -32768)
         (map ToInt16 (map pcmSample audioData)).
Proof.
  rewrite map_map. apply Forall_forall. intros v Hv.
  apply in_map_iff in Hv. destruct Hv as [x [Hx _]]. subst v.
  pose proof (truncQ_range _ (pcmSample_range x)) as Hr.
  rewrite ToInt16_small by lia. lia.
Qed.

(** ** The energy window *)

Lemma pushWindow_length (rms : Q) (buf : list Q) :
  (List.length buf <= silenceDetectionWindow)%nat ->
  (List.length (pushWindow rms buf) <= silenceDetectionWindow)%nat.
Proof.
  intros H. unfold pushWindow.
  destruct (Nat.ltb silenceDetectionWindow (List.length (buf ++ [rms]))) eqn:E.
  - destruct buf as [| a buf]; simpl in *; [lia |].
    rewrite length_app in *. simpl in *. lia.
  - apply Nat.ltb_ge in E. exact E.
Qed.

Lemma pushWindow_lastn (rms : Q) (buf : list Q) :
  (List.length buf <= silenceDetectionWindow)%nat ->
  pushWindow rms buf = lastn silenceDetectionWindow (buf ++ [rms]).
Proof.
  intros H. unfold pushWindow, lastn.
  destruct (Nat.ltb silenceDetectionWindow (List.length (buf ++ [rms]))) eqn:E.
  - apply Nat.ltb_lt in E. rewrite length_app in *. simpl in *.
    replace (List.length buf + 1 - silenceDetectionWindow)%nat with 1%nat by lia.
    destruct buf; reflexivity.
  - apply Nat.ltb_ge in E.
    replace (List.length (buf ++ [rms]) - silenceDetectionWindow)%nat
      with 0%nat by lia.
    reflexivity.
Qed.

Lemma detectSilence_window cfg now audioData s :
  silenceDetectionBuffer (fst (detectSilence cfg now audioData s))
  = pushWindow (rmsOf audioData) (silenceDetectionBuffer s).
Proof.
  unfold detectSilence, autoCommitDue. callbacks.
Qed.

Lemma detectSilence_avgRms cfg now audioData s :
  avgRms (snd (detectSilence cfg now audioData s))
  = mean (pushWindow (rmsOf audioData) (silenceDetectionBuffer s)).
Proof. reflexivity. Qed.

Lemma detectSilence_isSilent cfg now audioData s :
  isSilent (snd (detectSilence cfg now audioData s))
  = frameSilent cfg audioData s.
Proof. reflexivity. Qed.

Lemma step_window cfg ev s :
  silenceDetectionBuffer (step cfg ev s) = silenceDetectionBuffer s
  \/ exists rms, silenceDetectionBuffer (step cfg ev s)
                 = pushWindow rms (silenceDetectionBuffer s).
Proof.
  destruct ev as [| | | | | | | | | | now audioData |].
  11: {
  unfold step, onAudioData.
  destruct (isRecording s && negb (isProcessingAudio s)); [| now left].
  right. exists (rmsOf audioData).
  rewrite <- (detectSilence_window cfg now audioData s).
  unfold processAudioData.
  destruct (detectSilence cfg now audioData s) as [s1 i].
  callbacks. }
  all: left; handlers.
Qed.

Lemma run_window_bound cfg evs s :
  (List.length (silenceDetectionBuffer s) <= silenceDetectionWindow)%nat ->
  (List.length (silenceDetectionBuffer (run cfg evs s))
   <= silenceDetectionWindow)%nat.
Proof.
  revert s. induction evs as [| ev evs IH]; intros s H; simpl; [exact H |].
  apply IH. destruct (step_window cfg ev s) as [E | [rms E]]; rewrite E.
  - exact H.
  - now apply pushWindow_length.
Qed.

(** C9.  In every state that the component reaches, the energy window holds
    at most [silenceDetectionWindow] = 10 values; handling one more frame
    leaves in it the last 10 of the values seen, the frame's RMS being the
    newest, and the smoothed energy of that frame is their mean. *)
Theorem energy_window_bounded cfg evs now audioData :
  let s := run cfg evs initialState in
  let r := detectSilence cfg now audioData s in
  silenceDetectionWindow = 10%nat
  /\ (List.length (silenceDetectionBuffer s) <= 10)%nat
  /\ silenceDetectionBuffer (fst r)
     = lastn 10 (silenceDetectionBuffer s ++ [rmsOf audioData])
  /\ (List.length (silenceDetectionBuffer (fst r)) <= 10)%nat
  /\ avgRms (snd r) = mean (silenceDetectionBuffer (fst r)).
Proof.
  intros s r.
  assert (Hs : (List.length (silenceDetectionBuffer s)
                <= silenceDetectionWindow)%nat).
  { apply run_window_bound. simpl. unfold silenceDetectionWindow. lia. }
  assert (Hr : silenceDetectionBuffer (fst r)
               = pushWindow (rmsOf audioData) (silenceDetectionBuffer s))
    by apply detectSilence_window.
  split; [reflexivity |]. split; [exact Hs |]. split; [| split].
  - rewrite Hr. now apply pushWindow_lastn.
  - rewrite Hr. now apply pushWindow_length.
  - rewrite Hr. reflexivity.
Qed.

(** ** What a step sends *)

Ltac bool_facts :=
  repeat match goal with
         | H : _ || _ = false |- _ => apply orb_false_elim in H; destruct H
         | H : _ && _ = true |- _ => apply andb_prop in H; destruct H
         | H : negb _ = false |- _ => apply negb_false_iff in H
         | H : negb _ = true |- _ => apply negb_true_iff in H
         end.

Lemma emitsGuarded_same s s' : wire s' = wire s -> emitsGuarded s s'.
Proof.
  intros E. exists []. rewrite app_nil_r. split; [exact E | intros ? []].
Qed.

Lemma emitsGuarded_refl s : emitsGuarded s s.
Proof. now apply emitsGuarded_same. Qed.

Lemma sendAudioChunk_wire cfg pcmData s :
  wire (sendAudioChunk cfg pcmData s)
  = wire s ++ (if wsOpen s && negb (isProcessingAudio s)
               then [input_audio_buffer_append
                       (flat_map int16Bytes (map ToInt16 pcmData))]
               else []).
Proof.
  unfold sendAudioChunk, updateStats, send. vc_simpl.
  destruct (isOpen (ws s)); destruct (isProcessingAudio s); vc_simpl;
    now rewrite ?app_nil_r.
Qed.

Lemma sendAudioChunk_emits cfg pcmData s s0 :
  wire s = wire s0 -> ws s = ws s0 ->
  isProcessingAudio s = isProcessingAudio s0 ->
  emitsGuarded s0 (sendAudioChunk cfg pcmData s).
Proof.
  intros Ew Es Ep. unfold emitsGuarded. rewrite <- Ew. eexists. split.
  - apply sendAudioChunk_wire.
  - unfold wsOpen. rewrite <- Es, <- Ep. intros audio Hin.
    destruct (isOpen (ws s)); destruct (isProcessingAudio s);
      simpl in Hin; tauto.
Qed.

Lemma commitAudioBuffer_emits cfg s s0 :
  wire s = wire s0 -> ws s = ws s0 ->
  isProcessingAudio s = isProcessingAudio s0 ->
  emitsGuarded s0 (commitAudioBuffer cfg s).
Proof.
  intros Ew Es Ep. unfold commitAudioBuffer.
  destruct (negb (wsOpen s) || isProcessingAudio s) eqn:G;
    [apply emitsGuarded_same; now rewrite wire_log |].
  destruct (Nat.eqb (List.length (audioBuffer s)) 0);
    [apply emitsGuarded_same; now rewrite wire_log |].
  unfold wsOpen in G. bool_facts.
  assert (Hsend : wire (set_hasSpeechInBuffer
             (setProcessing true
                (log "Audio buffer committed for transcription" info
                   (send input_audio_buffer_commit
                      (if Nat.ltb 0 (List.length (audioBuffer s))
                       then sendAudioChunk cfg (audioBuffer s)
                              (set_audioBuffer s [])
                       else s)))) false)
           = wire s ++ (if Nat.ltb 0 (List.length (audioBuffer s))
                        then [input_audio_buffer_append
                                (flat_map int16Bytes
                                   (map ToInt16 (audioBuffer s)))]
                        else []) ++ [input_audio_buffer_commit]).
  { vc_simpl. rewrite wire_setProcessing. unfold log, send. vc_simpl.
    destruct (Nat.ltb 0 (List.length (audioBuffer s))).
    - rewrite sendAudioChunk_wire. unfold wsOpen. vc_simpl.
      rewrite H, H0. simpl. now rewrite <- app_assoc.
    - reflexivity. }
  unfold emitsGuarded. rewrite <- Ew. eexists. split; [exact Hsend |].
  unfold wsOpen. rewrite <- Es, <- Ep. intros audio _. now split.
Qed.

Lemma detectSilence_emits cfg now audioData s :
  emitsGuarded s (fst (detectSilence cfg now audioData s)).
Proof.
  unfold detectSilence. vc_simpl.
  repeat match goal with
         | |- context [if ?b then _ else _] => destruct b
         end;
    try (apply emitsGuarded_same; vc_simpl; rewrite ?wire_setSleeping;
         reflexivity).
  unfold emitsGuarded. vc_simpl.
  match goal with
  | |- context [commitAudioBuffer cfg ?x] =>
      exact (commitAudioBuffer_emits cfg x s eq_refl eq_refl eq_refl)
  end.
Qed.

Lemma processAudioData_wire cfg now audioData s :
  wire (processAudioData cfg now audioData s)
  = wire (fst (detectSilence cfg now audioData s)).
Proof.
  unfold processAudioData.
  destruct (detectSilence cfg now audioData s) as [s1 i]. callbacks.
Qed.

Lemma step_emits cfg ev s : emitsGuarded s (step cfg ev s).
Proof.
  destruct ev as [| | | | | | | | | | now audioData |].
  - apply emitsGuarded_same. handlers.
  - apply emitsGuarded_same. unfold step, disconnect.
    rewrite wire_setSleeping, wire_setProcessing. now destruct (ws s).
  - apply emitsGuarded_same. handlers.
  - apply emitsGuarded_same. unfold step, stopRecording.
    now rewrite wire_log, wire_setProcessing, wire_setSleeping.
  - apply commitAudioBuffer_emits; reflexivity.
  - unfold step, clearAudioBuffer.
    destruct (negb (wsOpen s)); [apply emitsGuarded_refl |].
    exists [input_audio_buffer_clear]. split.
    + callbacks.
    + intros audio [Hin | []]. discriminate.
  - apply emitsGuarded_same. handlers.
  - apply emitsGuarded_same. handlers.
  - apply emitsGuarded_same. handlers.
  - apply emitsGuarded_same. handlers.
  - unfold step, onAudioData.
    destruct (isRecording s && negb (isProcessingAudio s));
      [| apply emitsGuarded_refl].
    destruct (detectSilence_emits cfg now audioData s) as [l [E G]].
    exists l. now rewrite processAudioData_wire.
  - unfold step, sendChunk.
    destruct (isRecording s); [| apply emitsGuarded_refl]. vc_simpl.
    match goal with
    | |- context [if ?b then _ else _] => destruct b
    end; [| apply emitsGuarded_refl].
    apply sendAudioChunk_emits; reflexivity.
Qed.

Lemma sent_spec cfg ev s l :
  wire (step cfg ev s) = wire s ++ l -> sent cfg ev s = l.
Proof.
  intros E. unfold sent. rewrite E.
  rewrite skipn_app, skipn_all, Nat.sub_diag. reflexivity.
Qed.

(** ** The connection *)

Lemma commitAudioBuffer_connection cfg s :
  connection (commitAudioBuffer cfg s) = connection s.
Proof. unfold connection. callbacks. Qed.

Lemma detectSilence_connection cfg now audioData s :
  connection (fst (detectSilence cfg now audioData s)) = connection s.
Proof.
  unfold detectSilence. vc_simpl.
  repeat match goal with
         | |- context [if ?b then _ else _] => destruct b
         end;
    try (unfold connection; shapes; reflexivity).
  unfold connection. vc_simpl.
  match goal with
  | |- context [commitAudioBuffer cfg ?x] =>
      exact (commitAudioBuffer_connection cfg x)
  end.
Qed.

Lemma processAudioData_connection cfg now audioData s :
  connection (processAudioData cfg now audioData s) = connection s.
Proof.
  rewrite <- (detectSilence_connection cfg now audioData s).
  unfold processAudioData.
  destruct (detectSilence cfg now audioData s) as [s1 i]. callbacks.
Qed.

Lemma connection_fields s s' :
  connection s' = connection s ->
  ws s' = ws s /\ isConnected s' = isConnected s
  /\ sessionId s' = sessionId s /\ sessionInfo s' = sessionInfo s.
Proof. unfold connection. intros E. injection E. auto. Qed.

(** The socket reports open only once [onopen] has run and until the
    component is next told that it closes. *)
Lemma step_open_connected cfg ev s :
  (wsOpen s = true -> isConnected s = true) ->
  wsOpen (step cfg ev s) = true -> isConnected (step cfg ev s) = true.
Proof.
  destruct ev as [| | | | | | | | | | now audioData |].
  11: {
    unfold step, onAudioData.
    destruct (isRecording s && negb (isProcessingAudio s)); [| tauto].
    unfold wsOpen.
    destruct (connection_fields _ _
                (processAudioData_connection cfg now audioData s))
      as [-> [-> _]].
    tauto. }
  all: unfold_handlers; unfold_callbacks; split_matches; shapes; vc_simpl;
    intros;
    repeat match goal with
           | E : ws ?x = _, H : context [isOpen (ws ?x)] |- _ =>
               rewrite E in H
           end;
    cbn [isOpen wsClose] in *; try discriminate; auto.
  all: match goal with r : ReadyState |- _ => destruct r end;
    cbn [isOpen wsClose] in *; try discriminate; auto.
Qed.

Lemma run_open_connected cfg evs s :
  (wsOpen s = true -> isConnected s = true) ->
  wsOpen (run cfg evs s) = true -> isConnected (run cfg evs s) = true.
Proof.
  revert s. induction evs as [| ev evs IH]; intros s H; simpl; [exact H |].
  apply IH. now apply step_open_connected.
Qed.

(** C2.  Whatever state the component has reached, an append event leaves
    in a step only if, when the step starts, the socket is open, the
    connection has been reported open ([isConnected]) and the processing
    flag is down. *)
Theorem append_only_when_open_and_idle cfg evs ev audio :
  let s := run cfg evs initialState in
  In (input_audio_buffer_append audio) (sent cfg ev s) ->
  wsOpen s = true /\ isProcessingAudio s = false /\ isConnected s = true.
Proof.
  intros s Hin.
  destruct (step_emits cfg ev s) as [l [E G]].
  rewrite (sent_spec _ _ _ _ E) in Hin.
  destruct (G audio Hin) as [Ho Hp].
  split; [exact Ho |]. split; [exact Hp |].
  apply run_open_connected; [discriminate | exact Ho].
Qed.

(** ** Manual commit and manual clear *)

(** C8.  A commit request with nothing buffered is refused with a warning:
    the only change to the state is one more log entry, of type [warning];
    nothing is sent, and the buffer, the processing flag and the speech-seen
    flag are as they were. *)
Theorem commit_with_empty_buffer cfg s :
  audioBuffer s = [] ->
  let s' := commitAudioBuffer cfg s in
  (exists msg, s' = log msg warning s)
  /\ wire s' = wire s
  /\ audioBuffer s' = []
  /\ isProcessingAudio s' = isProcessingAudio s
  /\ hasSpeechInBuffer s' = hasSpeechInBuffer s.
Proof.
  intros Hb s'.
  assert (E : exists msg, s' = log msg warning s).
  { subst s'. unfold commitAudioBuffer. rewrite Hb.
    destruct (negb (wsOpen s) || isProcessingAudio s); eexists; reflexivity. }
  destruct E as [msg E]. split; [now exists msg |].
  rewrite E. unfold log. vc_simpl. auto.
Qed.



(** ** Committing *)

Lemma commitAudioBuffer_refused cfg s :
  commitAccepted s = false ->
  exists msg, commitAudioBuffer cfg s = log msg warning s.
Proof.
  unfold commitAccepted, commitAudioBuffer. intros H.
  destruct (negb (wsOpen s) || isProcessingAudio s);
    [eexists; reflexivity |].
  destruct (Nat.eqb (List.length (audioBuffer s)) 0);
    [eexists; reflexivity | discriminate].
Qed.

Lemma commitAudioBuffer_accepted cfg s :
  commitAccepted s = true ->
  let s' := commitAudioBuffer cfg s in
  wire s' = wire s
            ++ [input_audio_buffer_append
                  (flat_map int16Bytes (map ToInt16 (audioBuffer s)));
                input_audio_buffer_commit]
  /\ isProcessingAudio s' = true
  /\ hasSpeechInBuffer s' = false
  /\ audioBuffer s' = []
  /\ isSleeping s' = isSleeping s
  /\ isRecording s' = isRecording s
  /\ lastSpeechTime s' = lastSpeechTime s.
Proof.
  unfold commitAccepted, commitAudioBuffer. intros H.
  apply andb_prop in H. destruct H as [Hg Hn].
  apply negb_true_iff in Hg, Hn. apply orb_false_elim in Hg.
  destruct Hg as [Ho Hp]. apply negb_false_iff in Ho.
  unfold wsOpen in *.
  destruct (audioBuffer s) as [| x b] eqn:Eb; [discriminate |].
  rewrite Ho, Hp. cbn [negb orb List.length Nat.eqb Nat.ltb Nat.leb].
  unfold sendAudioChunk, wsOpen. vc_simpl. rewrite Ho, Hp.
  unfold updateStats, send, log. shapes. vc_simpl.
  rewrite <- app_assoc. repeat split; reflexivity.
Qed.

Lemma commitAudioBuffer_buffer cfg s :
  (audioBuffer (commitAudioBuffer cfg s) = audioBuffer s
   /\ isProcessingAudio (commitAudioBuffer cfg s) = isProcessingAudio s
   /\ isSleeping (commitAudioBuffer cfg s) = isSleeping s)
  \/ (audioBuffer (commitAudioBuffer cfg s) = []
      /\ isProcessingAudio (commitAudioBuffer cfg s) = true).
Proof.
  destruct (commitAccepted s) eqn:E.
  - right.
    destruct (commitAudioBuffer_accepted cfg s E) as (_ & P & _ & B & _).
    now split.
  - left. destruct (commitAudioBuffer_refused cfg s E) as [msg ->].
    repeat split; reflexivity.
Qed.

(** ** Frames *)

Lemma processAudioData_spec cfg now audioData s :
  let s1 := fst (detectSilence cfg now audioData s) in
  let s' := processAudioData cfg now audioData s in
  isSleeping s' = isSleeping s1
  /\ isProcessingAudio s' = isProcessingAudio s1
  /\ hasSpeechInBuffer s' = hasSpeechInBuffer s1
  /\ isRecording s' = isRecording s1
  /\ lastSpeechTime s' = lastSpeechTime s1
  /\ wire s' = wire s1
  /\ audioBuffer s'
     = if isSleeping s1 || isProcessingAudio s1 then audioBuffer s1
       else audioBuffer s1 ++ map pcmSample audioData.
Proof.
  unfold processAudioData.
  destruct (detectSilence cfg now audioData s) as [s1 i]. vc_simpl.
  destruct (isSleeping s1 || isProcessingAudio s1); vc_simpl;
    repeat split; reflexivity.
Qed.

Lemma detectSilence_buffer cfg now audioData s :
  audioBuffer (fst (detectSilence cfg now audioData s)) = audioBuffer s
  \/ (audioBuffer (fst (detectSilence cfg now audioData s)) = []
      /\ isProcessingAudio (fst (detectSilence cfg now audioData s)) = true).
Proof.
  unfold detectSilence. vc_simpl.
  repeat match goal with
         | |- context [if ?b then _ else _] => destruct b
         end;
    try (left; shapes; reflexivity).
  match goal with
  | |- context [commitAudioBuffer cfg ?x] =>
      destruct (commitAudioBuffer_buffer cfg x) as [[E _] | [E P]]
  end.
  - left. vc_simpl. rewrite E. reflexivity.
  - right. vc_simpl. now split.
Qed.


(** ** Silent frames *)

Lemma detectSilence_silent cfg now audioData s :
  frameSilent cfg audioData s = true ->
  let s0 := set_silenceDetectionBuffer s
              (pushWindow (rmsOf audioData) (silenceDetectionBuffer s)) in
  let timeSince := now - lastSpeechTime s in
  fst (detectSilence cfg now audioData s)
  = set_silenceDetected
      (if autoCommitDue cfg s timeSince then
         commitAudioBuffer cfg
           (log ("Auto-committing after " ++ string_of_Z (autoCommitDelay cfg)
                 ++ "ms of silence")%string info s0)
       else if (1000 <=? timeSince) && negb (hasSpeechInBuffer s) then
         setSleeping true s0
       else s0)
      (500 <? timeSince).
Proof.
  unfold frameSilent, detectSilence. intros H. vc_simpl. rewrite H.
  reflexivity.
Qed.

(** A silent frame handled while recording, with no speech seen so far:
    nothing is sent, no flag moves except that the client falls asleep once
    the wake timeout has run out. *)
Lemma silent_frame_without_speech cfg now audioData s :
  isRecording s = true -> isProcessingAudio s = false ->
  hasSpeechInBuffer s = false ->
  frameSilent cfg audioData s = true ->
  let s' := step cfg (EvAudioData now audioData) s in
  isRecording s' = true
  /\ isProcessingAudio s' = false
  /\ hasSpeechInBuffer s' = false
  /\ lastSpeechTime s' = lastSpeechTime s
  /\ wire s' = wire s
  /\ isSleeping s' = isSleeping s || (1000 <=? now - lastSpeechTime s).
Proof.
  intros Hr Hp Hs Hq. unfold step, onAudioData. rewrite Hr, Hp.
  cbn [negb andb].
  destruct (processAudioData_spec cfg now audioData s)
    as (E1 & E2 & E3 & E4 & E5 & E6 & _).
  rewrite E1, E2, E3, E4, E5, E6.
  rewrite (detectSilence_silent cfg now audioData s Hq).
  unfold autoCommitDue. rewrite Hs, andb_false_r. cbn [andb negb].
  rewrite andb_true_r.
  destruct (1000 <=? now - lastSpeechTime s); shapes; vc_simpl.
  - rewrite orb_true_r. repeat split; assumption || reflexivity.
  - rewrite orb_false_r. repeat split; assumption || reflexivity.
Qed.



(** ** Auto-commit *)

Lemma commitCount_app l l' :
  commitCount (l ++ l') = (commitCount l + commitCount l')%nat.
Proof. unfold commitCount. now rewrite filter_app, length_app. Qed.



Lemma sendChunk_quiet cfg s :
  hasSpeechInBuffer (fst (sendChunk cfg s)) = hasSpeechInBuffer s
  /\ commitCount (wire (fst (sendChunk cfg s))) = commitCount (wire s).
Proof.
  unfold sendChunk. destruct (isRecording s); [| now split]. vc_simpl.
  match goal with
  | |- context [if ?b then _ else _] => destruct b
  end; [| now split].
  rewrite sendAudioChunk_wire, commitCount_app. split.
  - callbacks.
  - destruct (wsOpen _ && negb _); unfold commitCount; simpl; lia.
Qed.




(** ** Disconnecting *)

Lemma isLive_isOpen w : isLive w = false -> isOpen w = false.
Proof. destruct w as [[| | |] |]; simpl; congruence. Qed.

Lemma step_offline cfg ev s :
  isConnectEvent ev = false ->
  isConnected s = false /\ isLive (ws s) = false ->
  isConnected (step cfg ev s) = false /\ isLive (ws (step cfg ev s)) = false.
Proof.
  destruct ev as [| | | | | | | | | | now audioData |]; intros Hc;
    try discriminate Hc; clear Hc.
  10: {
    unfold step, onAudioData.
    destruct (isRecording s && negb (isProcessingAudio s)); [| tauto].
    destruct (connection_fields _ _
                (processAudioData_connection cfg now audioData s))
      as [-> [-> _]].
    tauto. }
  all: unfold_handlers; unfold_callbacks; split_matches; shapes; vc_simpl;
    intros [Hc Hl];
    repeat match goal with
           | E : ws ?x = _, H : context [isLive (ws ?x)] |- _ =>
               rewrite E in H
           | E : ws ?x = _ |- context [isLive (ws ?x)] => rewrite E
           end;
    cbn [isLive isOpen wsClose] in *; try discriminate; auto.
  all: try (match goal with r : ReadyState |- _ => destruct r end;
    cbn [isLive isOpen wsClose] in *; try discriminate; auto; fail).
Qed.

Lemma run_offline cfg evs : forall s,
  forallb (fun e => negb (isConnectEvent e)) evs = true ->
  isConnected s = false /\ isLive (ws s) = false ->
  isConnected (run cfg evs s) = false /\ isLive (ws (run cfg evs s)) = false.
Proof.
  induction evs as [| ev evs IH]; intros s Hn Hs; [exact Hs |].
  cbn [forallb] in Hn. apply andb_prop in Hn. destruct Hn as [Hev Hn].
  apply negb_true_iff in Hev. cbn [run].
  apply IH; [exact Hn | now apply step_offline].
Qed.

Lemma disconnect_step cfg ev s :
  isDisconnectOf s ev = true ->
  let s' := step cfg ev s in
  isConnected s' = false
  /\ isLive (ws s') = false
  /\ isRecording s' = false
  /\ isProcessingAudio s' = false
  /\ sessionId s' = sessionId s
  /\ sessionInfo s' = sessionInfo s.
Proof.
  destruct ev; try discriminate.
  - intros _. unfold step, disconnect. shapes. vc_simpl.
    destruct (ws s) as [[| | |] |] eqn:E; vc_simpl; rewrite ?E;
      cbn [isLive wsClose]; repeat split; reflexivity.
  - unfold isDisconnectOf, step, onclose, log. shapes. vc_simpl.
    destruct (ws s) as [[| | |] |]; try discriminate; intros _;
      shapes; vc_simpl; cbn [isLive]; repeat split; reflexivity.
Qed.

(** C6 (as the code has it).  After a disconnect, explicit or by loss of the
    connection, the client is not connected, not recording and not
    processing, and it stays unconnected until it is told to connect again;
    the session id and the session record (id and model) are left as they
    were. *)
Theorem disconnect_keeps_session cfg ev s evs :
  isDisconnectOf s ev = true ->
  forallb (fun e => negb (isConnectEvent e)) evs = true ->
  let s' := step cfg ev s in
  isConnected s' = false
  /\ wsOpen s' = false
  /\ isRecording s' = false
  /\ isProcessingAudio s' = false
  /\ sessionId s' = sessionId s
  /\ sessionInfo s' = sessionInfo s
  /\ isConnected (run cfg evs s') = false
  /\ wsOpen (run cfg evs s') = false.
Proof.
  intros Hd Hn s'.
  destruct (disconnect_step cfg ev s Hd) as (H1 & H2 & H3 & H4 & H5 & H6).
  fold s' in H1, H2, H3, H4, H5, H6.
  destruct (run_offline cfg evs s' Hn (conj H1 H2)) as [H7 H8].
  unfold wsOpen. repeat split; auto using isLive_isOpen.
Qed.

(** ** Latency *)

(** On [response.done] the latency that is added to the statistics is the
    time between the entry into the message handler and the point where the
    handler reaches the case: the clock is read both times inside
    [handleServerMessage].  When the commit was sent does not enter into
    it. *)
Lemma response_done_latency cfg startTime now output usage s :
  let s' := handleServerMessage cfg startTime now
              (response_done output usage) s in
  latencySum s' = latencySum s + (now - startTime)
  /\ latencyCount s' = latencyCount s + 1
  /\ st_latencySum (audioStats s') = latencySum s + (now - startTime)
  /\ st_latencyCount (audioStats s') = latencyCount s + 1.
Proof.
  intros s'. subst s'. handlers.
Qed.

(** ** Bounded histories *)

Lemma log_length msg t s : (List.length (logs (log msg t s)) <= 100)%nat.
Proof. unfold log. vc_simpl. apply firstn_le_length. Qed.

Lemma setSleeping_logs b s :
  (List.length (logs s) <= 100)%nat ->
  (List.length (logs (setSleeping b s)) <= 100)%nat.
Proof.
  intros H. unfold setSleeping.
  destruct (Bool.eqb (isSleeping s) b); [exact H |].
  destruct b; apply log_length.
Qed.

Lemma setProcessing_logs b s :
  (List.length (logs s) <= 100)%nat ->
  (List.length (logs (setProcessing b s)) <= 100)%nat.
Proof.
  intros H. unfold setProcessing.
  destruct (Bool.eqb (isProcessingAudio s) b); [exact H |].
  destruct b; vc_simpl; apply log_length.
Qed.

Ltac logs_bound :=
  repeat first
    [ assumption
    | apply log_length
    | apply setSleeping_logs
    | apply setProcessing_logs
    | progress unfold updateStats, send, sendAudioChunk, commitAudioBuffer,
        clearAudioBuffer
    | progress vc_simpl
    | match goal with
      | |- context [match ?x with _ => _ end] => destruct x
      end ].

Lemma processAudioData_logs cfg now audioData s :
  (List.length (logs s) <= 100)%nat ->
  (List.length (logs (processAudioData cfg now audioData s)) <= 100)%nat.
Proof.
  intros H. unfold processAudioData, detectSilence. logs_bound.
Qed.

Lemma step_logs cfg ev s :
  (List.length (logs s) <= 100)%nat ->
  (List.length (logs (step cfg ev s)) <= 100)%nat.
Proof.
  intros H.
  destruct ev as [| | | | | | | startTime now msg | | | now audioData |].
  11: { unfold step, onAudioData.
        destruct (isRecording s && negb (isProcessingAudio s));
          [now apply processAudioData_logs | exact H]. }
  all: unfold step, sendChunk, handleServerMessage, processVoiceCommand,
         connect, onopen, onclose, onerror, disconnect, startRecording,
         stopRecording; logs_bound.
Qed.

(** X1.  The log never holds more than 100 entries, whatever happens to the
    component. *)
Theorem logs_at_most_100 cfg evs :
  (List.length (logs (run cfg evs initialState)) <= 100)%nat.
Proof.
  assert (H : forall s, (List.length (logs s) <= 100)%nat ->
                        (List.length (logs (run cfg evs s)) <= 100)%nat).
  { induction evs as [| ev evs IH]; intros s Hs; [exact Hs |].
    cbn [run]. apply IH. now apply step_logs. }
  apply H. simpl. lia.
Qed.

(** The state of the parent component, which the audio path leaves alone. *)
Lemma commitAudioBuffer_commandHistory cfg s :
  commandHistory (commitAudioBuffer cfg s) = commandHistory s.
Proof. callbacks. Qed.

Lemma processAudioData_commandHistory cfg now audioData s :
  commandHistory (processAudioData cfg now audioData s) = commandHistory s.
Proof.
  unfold processAudioData, detectSilence. vc_simpl.
  repeat match goal with
         | |- context [if ?b then _ else _] => destruct b
         end;
    shapes; vc_simpl; try reflexivity;
    match goal with
    | |- context [commitAudioBuffer cfg ?x] =>
        rewrite (commitAudioBuffer_commandHistory cfg x)
    end; reflexivity.
Qed.

Lemma step_commandHistory cfg ev s :
  (List.length (commandHistory s) <= 10)%nat ->
  (List.length (commandHistory (step cfg ev s)) <= 10)%nat.
Proof.
  intros H.
  destruct ev as [| | | | | | | startTime now msg | | | now audioData |].
  11: { unfold step, onAudioData.
        destruct (isRecording s && negb (isProcessingAudio s));
          [now rewrite processAudioData_commandHistory | exact H]. }
  all: unfold_handlers; unfold_callbacks; split_matches; shapes; vc_simpl;
    try assumption.
  all: cbn [List.length]; rewrite length_firstn; lia.
Qed.

(** X2.  The command history that the component feeds never holds more than
    10 entries. *)
Theorem command_history_at_most_10 cfg evs :
  (List.length (commandHistory (run cfg evs initialState)) <= 10)%nat.
Proof.
  assert (H : forall s, (List.length (commandHistory s) <= 10)%nat ->
                        (List.length (commandHistory (run cfg evs s)) <= 10)%nat).
  { induction evs as [| ev evs IH]; intros s Hs; [exact Hs |].
    cbn [run]. apply IH. now apply step_commandHistory. }
  apply H. simpl. lia.
Qed.

(** ** The bytes on the wire *)

Lemma ToInt16_range (q : Q) : -32768 <= ToInt16 q <= 32767.
Proof.
  unfold ToInt16.
  pose proof (Z.mod_pos_bound (truncQ q) 65536 ltac:(lia)) as Hm.
  destruct (32768 <=? truncQ q mod 65536) eqn:E.
  - apply Z.leb_le in E. lia.
  - apply Z.leb_gt in E. lia.
Qed.

Lemma land_255 (v : Z) : Z.land v 255 = v mod 256.
Proof. change 255 with (Z.ones 8). now rewrite Z.land_ones by lia. Qed.

Lemma land_255_range (v : Z) : 0 <= Z.land v 255 <= 255.
Proof.
  rewrite land_255. pose proof (Z.mod_pos_bound v 256 ltac:(lia)). lia.
Qed.

(** X3.  The two bytes written for a 16-bit value are bytes, and read low
    byte first as a two's-complement number they give the value back. *)
Theorem int16Bytes_little_endian (v : Z) :
  -32768 <= v <= 32767 ->
  exists lo hi,
    int16Bytes v = [lo; hi]
    /\ 0 <= lo <= 255 /\ 0 <= hi <= 255
    /\ int16OfBytes lo hi = v.
Proof.
  intros Hv. exists (Z.land v 255), (Z.land (Z.shiftr v 8) 255).
  split; [reflexivity |].
  split; [apply land_255_range |]. split; [apply land_255_range |].
  unfold int16OfBytes. rewrite !land_255, Z.shiftr_div_pow2 by lia.
  change (2 ^ 8) with 256.
  assert (Hq : -128 <= v / 256 <= 127).
  { split; [apply Z.div_le_lower_bound; lia |].
    assert (v / 256 < 128) by (apply Z.div_lt_upper_bound; lia). lia. }
  pose proof (Z.div_mod v 256 ltac:(lia)) as Hd.
  destruct (Z_le_gt_dec 0 (v / 256)) as [Hn | Hn].
  - rewrite (Z.mod_small (v / 256)) by lia.
    destruct (128 <=? v / 256) eqn:E; [apply Z.leb_le in E; lia | lia].
  - assert (Hm : v / 256 mod 256 = v / 256 + 256).
    { symmetry. apply Z.mod_unique with (q := -1); lia. }
    rewrite Hm.
    destruct (128 <=? v / 256 + 256) eqn:E; [lia | apply Z.leb_gt in E; lia].
Qed.


Lemma encodeSamples_length pcmData :
  List.length (encodeSamples pcmData) = (2 * List.length pcmData)%nat.
Proof.
  unfold encodeSamples. induction pcmData as [| x l IH]; [reflexivity |].
  cbn [map flat_map int16Bytes List.length app]. rewrite IH. lia.
Qed.

(** X4.  Whatever numbers the buffer holds, the payload of a chunk has two
    bytes per sample, each between 0 and 255. *)
Theorem chunk_payload_is_bytes (pcmData : list Q) :
  List.length (encodeSamples pcmData) = (2 * List.length pcmData)%nat
  /\ Forall (fun b => 0 <= b <= 255) (encodeSamples pcmData).
Proof.
  split; [apply encodeSamples_length |].
  unfold encodeSamples. apply Forall_forall. intros b Hb.
  apply in_flat_map in Hb. destruct Hb as [v [_ Hb]].
  destruct Hb as [<- | [<- | []]]; apply land_255_range.
Qed.

(** ** Statistics *)

Lemma appendCount_app l l' :
  appendCount (l ++ l') = (appendCount l + appendCount l')%nat.
Proof. unfold appendCount. now rewrite filter_app, length_app. Qed.

Lemma payloadBytes_app l l' :
  payloadBytes (l ++ l') = payloadBytes l ++ payloadBytes l'.
Proof. unfold payloadBytes. now rewrite flat_map_app. Qed.

Ltac stats_arith :=
  unfold statsMatchWire in *; vc_simpl;
  rewrite ?appendCount_app, ?payloadBytes_app, ?length_app;
  cbn [appendCount payloadBytes flat_map payload filter isAppend
       List.length app];
  rewrite ?app_nil_r, ?length_app; lia.

Lemma sendAudioChunk_stats cfg pcmData s s0 :
  chunkCounter s = chunkCounter s0 -> totalBytes s = totalBytes s0 ->
  wire s = wire s0 ->
  statsMatchWire s0 -> statsMatchWire (sendAudioChunk cfg pcmData s).
Proof.
  intros Ec Et Ew H.
  assert (H' : statsMatchWire s)
    by (unfold statsMatchWire in *; now rewrite Ec, Et, Ew).
  clear H Ec Et Ew. unfold sendAudioChunk, updateStats, send.
  destruct (negb (wsOpen s) || isProcessingAudio s); stats_arith.
Qed.

Lemma commitAudioBuffer_stats cfg s s0 :
  chunkCounter s = chunkCounter s0 -> totalBytes s = totalBytes s0 ->
  wire s = wire s0 ->
  statsMatchWire s0 -> statsMatchWire (commitAudioBuffer cfg s).
Proof.
  intros Ec Et Ew H.
  assert (H' : statsMatchWire s)
    by (unfold statsMatchWire in *; now rewrite Ec, Et, Ew).
  clear H Ec Et Ew. unfold commitAudioBuffer.
  destruct (negb (wsOpen s) || isProcessingAudio s);
    [unfold log; stats_arith |].
  destruct (Nat.eqb (List.length (audioBuffer s)) 0);
    [unfold log; stats_arith |].
  destruct (Nat.ltb 0 (List.length (audioBuffer s))).
  - pose proof (sendAudioChunk_stats cfg (audioBuffer s)
                  (set_audioBuffer s []) s eq_refl eq_refl eq_refl H') as Hs.
    revert Hs.
    generalize (sendAudioChunk cfg (audioBuffer s) (set_audioBuffer s [])).
    intros s1 Hs. unfold send, log. shapes. stats_arith.
  - unfold send, log. shapes. stats_arith.
Qed.

Lemma processAudioData_stats cfg now audioData s :
  statsMatchWire s -> statsMatchWire (processAudioData cfg now audioData s).
Proof.
  intros H. unfold processAudioData, detectSilence. vc_simpl.
  repeat match goal with
         | |- context [if ?b then _ else _] => destruct b
         end;
    shapes; vc_simpl;
    try (unfold statsMatchWire in *; vc_simpl; exact H);
    match goal with
    | |- context [commitAudioBuffer cfg ?x] =>
        pose proof (commitAudioBuffer_stats cfg x s eq_refl eq_refl eq_refl H)
          as Hc;
        revert Hc; generalize (commitAudioBuffer cfg x)
    end;
    intros s1 Hc; unfold statsMatchWire in *; vc_simpl; exact Hc.
Qed.

Lemma step_stats cfg ev s :
  statsMatchWire s -> statsMatchWire (step cfg ev s).
Proof.
  intros H.
  destruct ev as [| | | | | | | startTime now msg | | | now audioData |].
  11: { unfold step, onAudioData.
        destruct (isRecording s && negb (isProcessingAudio s));
          [now apply processAudioData_stats | exact H]. }
  5: { now apply (commitAudioBuffer_stats cfg s s). }
  10: { unfold step, sendChunk. destruct (isRecording s); [| exact H].
        vc_simpl.
        match goal with
        | |- context [if ?b then _ else _] => destruct b
        end; [| exact H].
        now apply (sendAudioChunk_stats cfg _ _ s). }
  all: unfold_handlers; unfold_callbacks; split_matches; shapes;
    stats_arith.
Qed.

(** X5.  In every state that the component reaches, the chunk counter is
    the number of append events sent and the byte counter is the number of
    audio bytes sent. *)
Theorem stats_match_wire cfg evs :
  let s := run cfg evs initialState in
  chunkCounter s = Z.of_nat (appendCount (wire s))
  /\ totalBytes s = Z.of_nat (List.length (payloadBytes (wire s))).
Proof.
  assert (H : forall s, statsMatchWire s -> statsMatchWire (run cfg evs s)).
  { induction evs as [| ev evs IH]; intros s Hs; [exact Hs |].
    cbn [run]. apply IH. now apply step_stats. }
  apply H. split; reflexivity.
Qed.

(** ** From the buffer to the wire *)

Lemma handleServerMessage_audioSide cfg startTime now msg s :
  audioSide (handleServerMessage cfg startTime now msg s) = audioSide s.
Proof. unfold audioSide. destruct msg; handlers. Qed.









(** X7.  The chunk timer takes the chunk out of the buffer before the
    socket is looked at: when the socket is not open the chunk is neither
    sent nor kept. *)
Theorem chunk_dropped_when_socket_not_open cfg s :
  isRecording s = true -> isProcessingAudio s = false ->
  isSleeping s = false -> wsOpen s = false ->
  samplesPerChunk cfg <= Z.of_nat (List.length (audioBuffer s)) ->
  fst (sendChunk cfg s)
  = set_audioBuffer s
      (skipn (Z.to_nat (samplesPerChunk cfg)) (audioBuffer s)).
Proof.
  intros Hr Hp Hz Ho Hn. unfold sendChunk, sendAudioChunk.
  rewrite Hr, Hp, Hz. cbn [negb andb].
  apply Z.leb_le in Hn. rewrite Hn. unfold wsOpen in *. vc_simpl.
  rewrite Ho. reflexivity.
Qed.


(** ** Server messages *)

(** X9.  No server message, of whatever kind, sends anything, touches the
    socket or the audio buffer, or changes what capture and silence
    detection keep: the recording and sleeping flags, the energy window,
    the time of the last speech, the chunk and byte counters. *)
Theorem server_message_leaves_audio_alone cfg startTime now msg s :
  let s' := handleServerMessage cfg startTime now msg s in
  wire s' = wire s
  /\ ws s' = ws s
  /\ audioBuffer s' = audioBuffer s
  /\ isRecording s' = isRecording s
  /\ isSleeping s' = isSleeping s
  /\ silenceDetectionBuffer s' = silenceDetectionBuffer s
  /\ lastSpeechTime s' = lastSpeechTime s
  /\ chunkCounter s' = chunkCounter s
  /\ totalBytes s' = totalBytes s.
Proof.
  intros s'.
  pose proof (handleServerMessage_audioSide cfg startTime now msg s) as E.
  fold s' in E. unfold audioSide in E.
  injection E as E1 E2 E3 E4 E5 E6 E7 E8 E9 E10.
  repeat split; assumption.
Qed.

(** X10.  What a server message does to the processing flag depends on its
    kind alone: [input_audio_buffer.committed] raises it, [response.done]
    and [error] lower it, every other kind, known or unknown, leaves it as
    it is. *)
Theorem server_message_processing_flag cfg startTime now msg s :
  isProcessingAudio (handleServerMessage cfg startTime now msg s)
  = match msg with
    | input_audio_buffer_committed => true
    | response_done _ _ | server_error _ => false
    | _ => isProcessingAudio s
    end.
Proof. destruct msg; handlers. Qed.





(** ** Invariants of the flags *)

Lemma processAudioData_flags cfg now audioData s :
  (hasSpeechInBuffer s = true -> isSleeping s = false) ->
  hasSpeechInBuffer (processAudioData cfg now audioData s) = true ->
  isSleeping (processAudioData cfg now audioData s) = false.
Proof.
  destruct (processAudioData_spec cfg now audioData s)
    as (-> & _ & -> & _).
  unfold detectSilence. vc_simpl.
  destruct (negb (Qlt_bool _ _)).
  - shapes. vc_simpl. reflexivity.
  - destruct (autoCommitDue cfg _ _).
    + match goal with
      | |- context [commitAudioBuffer cfg ?x] =>
          destruct (commitAccepted x) eqn:E;
          [destruct (commitAudioBuffer_accepted cfg x E)
             as (_ & _ & Eh & _ & Ez & _)
          | destruct (commitAudioBuffer_refused cfg x E) as [m Em]]
      end.
      * vc_simpl. rewrite Eh. discriminate.
      * rewrite Em. unfold log. vc_simpl. tauto.
    + destruct (hasSpeechInBuffer s) eqn:Hs; cbn [negb];
        rewrite ?andb_false_r, ?andb_true_r.
      * vc_simpl. tauto.
      * destruct (1000 <=? now - lastSpeechTime s); shapes; vc_simpl;
          rewrite ?Hs; discriminate.
Qed.

Lemma step_flags cfg ev s :
  (hasSpeechInBuffer s = true -> isSleeping s = false) ->
  hasSpeechInBuffer (step cfg ev s) = true ->
  isSleeping (step cfg ev s) = false.
Proof.
  destruct ev as [| | | | | | | startTime now msg | | | now audioData |].
  11: { unfold step, onAudioData.
        destruct (isRecording s && negb (isProcessingAudio s));
          [apply processAudioData_flags | tauto]. }
  all: unfold_handlers; unfold_callbacks; split_matches; shapes; vc_simpl;
    intros; try discriminate; auto.
Qed.

(** X12.  The client is never asleep while speech waits in the buffer: in
    every state that the component reaches, the speech-seen flag and the
    sleeping flag are not both up. *)
Theorem never_asleep_with_speech cfg evs :
  let s := run cfg evs initialState in
  hasSpeechInBuffer s = true -> isSleeping s = false.
Proof.
  assert (H : forall s,
             (hasSpeechInBuffer s = true -> isSleeping s = false) ->
             hasSpeechInBuffer (run cfg evs s) = true ->
             isSleeping (run cfg evs s) = false).
  { induction evs as [| ev evs IH]; intros s Hs; [exact Hs |].
    cbn [run]. apply IH. now apply step_flags. }
  apply H. reflexivity.
Qed.

Lemma step_session cfg ev s :
  sessionAgrees s -> sessionAgrees (step cfg ev s).
Proof.
  unfold sessionAgrees.
  destruct ev as [| | | | | | | startTime now msg | | | now audioData |].
  11: { unfold step, onAudioData.
        destruct (isRecording s && negb (isProcessingAudio s)); [| tauto].
        destruct (connection_fields _ _
                    (processAudioData_connection cfg now audioData s))
          as (_ & _ & -> & ->).
        tauto. }
  all: unfold_handlers; unfold_callbacks; split_matches; shapes; vc_simpl;
    intros; try reflexivity; auto.
Qed.

(** X13.  The session id kept for the connection and the session record
    shown to the user always name the same session: in every state that
    the component reaches both are absent, or both are present with the
    same id. *)
Theorem session_id_agrees cfg evs :
  let s := run cfg evs initialState in
  sessionId s = option_map id (sessionInfo s).
Proof.
  assert (H : forall s, sessionAgrees s -> sessionAgrees (run cfg evs s)).
  { induction evs as [| ev evs IH]; intros s Hs; [exact Hs |].
    cbn [run]. apply IH. now apply step_session. }
  apply H. reflexivity.
Qed.

(** ** Speech, sleep and the timer *)

Lemma detectSilence_speech cfg now audioData s :
  frameSilent cfg audioData s = false ->
  fst (detectSilence cfg now audioData s)
  = set_silenceDetected
      (setSleeping false
         (set_hasSpeechInBuffer
            (set_lastSpeechTime
               (set_silenceDetectionBuffer s
                  (pushWindow (rmsOf audioData) (silenceDetectionBuffer s)))
               now)
            true))
      false.
Proof.
  unfold frameSilent, detectSilence. intros H. vc_simpl. rewrite H.
  reflexivity.
Qed.

(** X14.  A frame that is not silent, handled while recording and not
    processing, wakes the client, marks speech as seen, restarts the
    silence clock and is buffered in full; nothing is sent for it. *)
Theorem speech_frame_wakes_and_buffers cfg now audioData s :
  isRecording s = true -> isProcessingAudio s = false ->
  frameSilent cfg audioData s = false ->
  let s' := step cfg (EvAudioData now audioData) s in
  isSleeping s' = false
  /\ hasSpeechInBuffer s' = true
  /\ lastSpeechTime s' = now
  /\ isProcessingAudio s' = false
  /\ audioBuffer s' = audioBuffer s ++ map pcmSample audioData
  /\ wire s' = wire s.
Proof.
  intros Hr Hp Hq. unfold step, onAudioData. rewrite Hr, Hp.
  cbn [negb andb].
  destruct (processAudioData_spec cfg now audioData s)
    as (E1 & E2 & E3 & _ & E5 & E6 & E7).
  rewrite E1, E2, E3, E5, E6, E7.
  rewrite (detectSilence_speech cfg now audioData s Hq).
  shapes. vc_simpl. rewrite Hp. cbn [orb].
  repeat split; reflexivity.
Qed.

Lemma idle_step cfg ev s :
  isRecording s = true -> isProcessingAudio s = false ->
  hasSpeechInBuffer s = false -> isSleeping s = true ->
  idleEvent cfg ev s ->
  let s' := step cfg ev s in
  (isRecording s' = true /\ isProcessingAudio s' = false
   /\ hasSpeechInBuffer s' = false /\ isSleeping s' = true)
  /\ wire s' = wire s /\ audioBuffer s' = audioBuffer s.
Proof.
  intros Hr Hp Hs Hz Hev.
  destruct ev as [| | | | | | | startTime now msg | | | now audioData |];
    try contradiction.
  - cbn [idleEvent] in Hev.
    destruct (silent_frame_without_speech cfg now audioData s Hr Hp Hs Hev)
      as (E1 & E2 & E3 & _ & E5 & E6).
    rewrite Hz in E6. cbn [orb] in E6.
    intros s'. fold s' in E1, E2, E3, E5, E6.
    split; [auto |]. split; [exact E5 |].
    subst s'. unfold step, onAudioData in *. rewrite Hr, Hp in *.
    cbn [negb andb] in *.
    destruct (processAudioData_spec cfg now audioData s)
      as (F1 & F2 & _ & _ & _ & _ & F7).
    rewrite F7. rewrite <- F1, <- F2, E6, E2. cbn [orb].
    destruct (detectSilence_buffer cfg now audioData s) as [E | [_ P]];
      [exact E |].
    rewrite <- F2, E2 in P. discriminate.
  - intros s'. subst s'. unfold step, sendChunk.
    rewrite Hr, Hp, Hz. cbn [negb andb fst]. auto.
Qed.

(** X15.  Sleep lasts until speech: from a state that is recording and
    asleep with no speech seen, any sequence of silent frames and timer
    ticks leaves the client asleep, sends nothing and buffers nothing. *)
Theorem asleep_until_speech cfg evs : forall s,
  isRecording s = true -> isProcessingAudio s = false ->
  hasSpeechInBuffer s = false -> isSleeping s = true ->
  idleRun cfg evs s ->
  isSleeping (run cfg evs s) = true
  /\ wire (run cfg evs s) = wire s
  /\ audioBuffer (run cfg evs s) = audioBuffer s.
Proof.
  induction evs as [| ev evs IH]; intros s Hr Hp Hs Hz Hrun.
  - cbn [run]. auto.
  - destruct Hrun as [Hev Hrun].
    destruct (idle_step cfg ev s Hr Hp Hs Hz Hev)
      as ((Hr' & Hp' & Hs' & Hz') & Ew & Eb).
    destruct (IH _ Hr' Hp' Hs' Hz' Hrun) as (Fz & Fw & Fb).
    cbn [run]. rewrite Fw, Fb. auto.
Qed.

Lemma detectSilence_no_auto_commit cfg now audioData s :
  autoCommitDue cfg s (now - lastSpeechTime s) = false ->
  wire (fst (detectSilence cfg now audioData s)) = wire s.
Proof.
  intros H. destruct (frameSilent cfg audioData s) eqn:Hq.
  - rewrite (detectSilence_silent cfg now audioData s Hq), H.
    destruct ((1000 <=? now - lastSpeechTime s)
              && negb (hasSpeechInBuffer s));
      shapes; reflexivity.
  - rewrite (detectSilence_speech cfg now audioData s Hq).
    shapes. reflexivity.
Qed.

Lemma step_wire_unchanged cfg ev s :
  match ev with
  | EvAudioData _ _ | EvChunkTimer | EvCommitAudio | EvClearBuffer => True
  | _ => wire (step cfg ev s) = wire s
  end.
Proof.
  destruct ev as [| | | | | | | startTime now msg | | | now audioData |];
    try exact I.
  6: { unfold step. destruct (ws s) as [[| | |] |]; try reflexivity.
       pose proof (handleServerMessage_audioSide cfg startTime now msg s)
         as E.
       unfold audioSide in E. now injection E. }
  all: handlers.
Qed.

Lemma step_no_auto_commit cfg ev s :
  autoCommitDelay cfg <= 0 -> isCommitEvent ev = false ->
  commitCount (wire (step cfg ev s)) = commitCount (wire s).
Proof.
  intros Hd Hev. pose proof (step_wire_unchanged cfg ev s) as Hw.
  destruct ev as [| | | | | | | startTime now msg | | | now audioData |];
    try discriminate Hev; try (now rewrite Hw).
  - unfold step, clearAudioBuffer.
    destruct (negb (wsOpen s)); [reflexivity |].
    unfold updateStats, send, log.
    destruct (isProcessingAudio _); shapes; vc_simpl;
      now rewrite commitCount_app, Nat.add_0_r.
  - unfold step, onAudioData.
    destruct (isRecording s && negb (isProcessingAudio s)); [| reflexivity].
    rewrite processAudioData_wire, detectSilence_no_auto_commit;
      [reflexivity |].
    unfold autoCommitDue.
    replace (0 <? autoCommitDelay cfg) with false; [reflexivity |].
    symmetry. apply Z.ltb_ge. exact Hd.
  - unfold step. now destruct (sendChunk_quiet cfg s).
Qed.

(** X16.  With the auto-commit delay set to zero (or below), the component
    never commits of its own accord: as long as no commit is requested, no
    commit event is sent, whatever frames, ticks, messages and other
    requests come in. *)
Theorem no_auto_commit_when_disabled cfg evs : forall s,
  autoCommitDelay cfg <= 0 ->
  forallb (fun ev => negb (isCommitEvent ev)) evs = true ->
  commitCount (wire (run cfg evs s)) = commitCount (wire s).
Proof.
  induction evs as [| ev evs IH]; intros s Hd Hevs; [reflexivity |].
  cbn [forallb] in Hevs. apply andb_prop in Hevs.
  destruct Hevs as [Hev Hevs]. apply negb_true_iff in Hev.
  cbn [run]. rewrite (IH _ Hd Hevs). now apply step_no_auto_commit.
Qed.

(** X17.  While recording, a run of the chunk timer always asks to be run
    again, after a delay that is positive and at most four chunk intervals
    or one second, whichever is longer. *)
Theorem chunk_timer_reschedules cfg s :
  isRecording s = true -> 0 < chunkSize cfg ->
  exists d, snd (sendChunk cfg s) = Some d
            /\ 0 < d <= Z.max (chunkSize cfg * 4) 1000.
Proof.
  intros Hr Hc. unfold sendChunk. rewrite Hr. cbn [snd].
  eexists. split; [reflexivity |].
  repeat match goal with
         | |- context [if ?b then _ else _] => destruct b
         end; lia.
Qed.

(** ** The audio worklet processor *)

Lemma writeAt_length i x a : List.length (writeAt i x a) = List.length a.
Proof.
  revert i. induction a as [| h t IH]; intros [| i]; simpl; auto.
Qed.

Lemma firstn_writeAt i x a :
  (i < List.length a)%nat ->
  firstn (S i) (writeAt i x a) = firstn i a ++ [x].
Proof.
  revert i. induction a as [| h t IH]; intros [| i] H; simpl in *;
    try lia; [reflexivity |].
  f_equal. apply IH. lia.
Qed.

Lemma storeSample_spec w posted x :
  workletReady w ->
  let r := storeSample (w, posted) x in
  workletReady (fst r)
  /\ bufferSize (fst r) = bufferSize w
  /\ exists new,
       snd r = posted ++ new
       /\ Forall (fun f => List.length f = bufferSize w) new
       /\ List.concat new ++ pendingSamples (fst r) = pendingSamples w ++ [x].
Proof.
  intros [Hl Hi]. unfold storeSample, pendingSamples, workletReady.
  destruct (Nat.leb (bufferSize w) (S (bufferIndex w))) eqn:E;
    cbn [fst snd bufferSize buffer bufferIndex].
  - apply Nat.leb_le in E.
    assert (Hfull : S (bufferIndex w) = List.length (buffer w)) by lia.
    split; [rewrite length_map, writeAt_length; lia |].
    split; [reflexivity |].
    exists [writeAt (bufferIndex w) x (buffer w)].
    split; [reflexivity |]. split.
    + constructor; [now rewrite writeAt_length | constructor].
    + cbn [List.concat firstn]. rewrite !app_nil_r.
      rewrite <- (firstn_all (writeAt _ _ _)), writeAt_length, <- Hfull.
      apply firstn_writeAt. lia.
  - apply Nat.leb_gt in E.
    split; [rewrite writeAt_length; lia |].
    split; [reflexivity |].
    exists []. rewrite app_nil_r.
    split; [reflexivity |]. split; [constructor |].
    cbn [List.concat app]. apply firstn_writeAt. lia.
Qed.

Lemma process_fold channelData : forall w posted,
  workletReady w ->
  let r := fold_left storeSample channelData (w, posted) in
  workletReady (fst r)
  /\ bufferSize (fst r) = bufferSize w
  /\ exists new,
       snd r = posted ++ new
       /\ Forall (fun f => List.length f = bufferSize w) new
       /\ List.concat new ++ pendingSamples (fst r)
          = pendingSamples w ++ channelData.
Proof.
  induction channelData as [| x l IH]; intros w posted Hw.
  - cbn [fold_left fst snd]. split; [exact Hw |]. split; [reflexivity |].
    exists []. rewrite !app_nil_r. repeat split. constructor.
  - cbn [fold_left].
    destruct (storeSample_spec w posted x Hw) as (Hw1 & Hs1 & n1 & E1 & F1 & C1).
    destruct (storeSample (w, posted) x) as [w1 p1].
    cbn [fst snd] in *.
    destruct (IH w1 p1 Hw1) as (Hw2 & Hs2 & n2 & E2 & F2 & C2).
    split; [exact Hw2 |]. split; [congruence |].
    exists (n1 ++ n2). split; [now rewrite E2, E1, app_assoc |]. split.
    + apply Forall_app. split; [exact F1 |]. now rewrite Hs1 in F2.
    + rewrite concat_app, <- app_assoc, C2, app_assoc, C1, <- app_assoc.
      reflexivity.
Qed.

(** X18.  Every frame that the worklet processor posts has exactly
    [bufferSize] samples, and the processor is ready for the next call:
    its buffer has kept its size and the write index is inside it. *)
Theorem worklet_posts_full_frames w input :
  workletReady w ->
  workletReady (fst (process w input))
  /\ bufferSize (fst (process w input)) = bufferSize w
  /\ Forall (fun f => List.length f = bufferSize w) (snd (process w input)).
Proof.
  intros Hw. unfold process. destruct input as [| channelData rest].
  - cbn [fst snd]. repeat split; try apply Hw. constructor.
  - destruct (process_fold channelData w [] Hw) as (H1 & H2 & n & E & F & _).
    split; [exact H1 |]. split; [exact H2 |]. rewrite E. exact F.
Qed.

(** X19.  The worklet processor passes the samples of the first channel
    on unchanged and in order: the frames it posts, followed by what it has
    stored for the next frame, are what was stored before followed by the
    samples of this call. *)
Theorem worklet_keeps_the_stream w channelData rest :
  workletReady w ->
  let r := process w (channelData :: rest) in
  List.concat (snd r) ++ pendingSamples (fst r) = pendingSamples w ++ channelData.
Proof.
  intros Hw r. subst r. unfold process.
  destruct (process_fold channelData w [] Hw) as (_ & _ & n & E & _ & C).
  rewrite E. exact C.
Qed.

(** ** Visualization and the displayed average *)

Lemma sum_abs_nonneg chunk : forall acc,
  (0 <= acc)%Q ->
  (0 <= fold_left (fun sum x => sum + Qabs x) chunk acc)%Q.
Proof.
  induction chunk as [| x l IH]; intros acc H; [exact H |].
  cbn [fold_left]. apply IH.
  pose proof (Qabs_nonneg x). lra.
Qed.

Lemma barHeight_range chunk :
  chunk <> [] ->
  exists h, barHeight chunk = Some h /\ (0 <= h <= 60)%Q.
Proof.
  intros H. unfold barHeight. destruct chunk as [| x l]; [contradiction |].
  eexists. split; [reflexivity |]. split; [| apply Q.le_min_r].
  apply Q.min_glb; [| lra].
  apply Qmult_le_0_compat; [| lra].
  unfold Qdiv. apply Qmult_le_0_compat.
  - apply sum_abs_nonneg. lra.
  - apply Qinv_le_0_compat. unfold Qlen, Qle. simpl. lia.
Qed.

(** X20.  [updateVisualization] keeps the number of bars, and when the
    frame has at least as many samples as there are bars, every bar is a
    number between 0 and 60. *)
Theorem visualization_bars_in_range (bars audioData : list Q) :
  (List.length bars <= List.length audioData)%nat ->
  List.length (updateVisualization bars audioData) = List.length bars
  /\ Forall (fun bar => exists h, bar = Some h /\ (0 <= h <= 60)%Q)
            (updateVisualization bars audioData).
Proof.
  intros Hl. unfold updateVisualization.
  split; [now rewrite length_map, length_seq |].
  apply Forall_forall. intros bar Hin. apply in_map_iff in Hin.
  destruct Hin as [i [<- Hi]]. apply in_seq in Hi.
  apply barHeight_range.
  set (n := List.length bars) in *. set (m := List.length audioData) in *.
  assert (Hn : (0 < n)%nat) by lia.
  assert (Hc : (1 <= m / n)%nat) by (apply Nat.div_le_lower_bound; lia).
  assert (Hm : (n * (m / n) <= m)%nat) by (apply Nat.Div0.mul_div_le).
  intros E. apply (f_equal (@List.length Q)) in E.
  rewrite length_firstn, length_skipn in E. cbn [List.length] in E.
  fold m in E. nia.
Qed.

(** X21.  A frame with fewer samples than there are bars turns every bar
    into NaN: each chunk is empty and its mean is 0/0. *)
Theorem visualization_short_frame (bars audioData : list Q) :
  (List.length audioData < List.length bars)%nat ->
  updateVisualization bars audioData = repeat None (List.length bars).
Proof.
  intros Hl. unfold updateVisualization.
  rewrite Nat.div_small by exact Hl.
  assert (E : forall l : list nat,
             map (fun i => barHeight (firstn 0 (skipn (i * 0) audioData))) l
             = repeat None (List.length l)).
  { induction l as [| i l IH]; [reflexivity |].
    cbn [map List.length repeat]. rewrite IH. reflexivity. }
  now rewrite E, length_seq.
Qed.

(** X22.  The average latency shown is 0 as long as no response has been
    counted; afterwards it is the mean of the recorded latencies rounded to
    the nearest integer, halves upwards. *)
Theorem average_latency_rounded s :
  getAvgLatency s
  = if 0 <? st_latencyCount (audioStats s)
    then (2 * st_latencySum (audioStats s) + st_latencyCount (audioStats s))
         / (2 * st_latencyCount (audioStats s))
    else 0.
Proof.
  unfold getAvgLatency, Math_round.
  destruct (st_latencyCount (audioStats s)) as [| p | p]; try reflexivity.
  cbn [Z.ltb Z.compare].
  unfold Qfloor, Qdiv, Qinv, Qmult, Qplus, inject_Z.
  cbn [Qnum Qden]. f_equal; lia.
Qed.

(** ** Clearing, and the processing mode *)

(** X23.  On an open socket a clear request always does the same,
    whatever the buffer holds and whether or not the client is processing:
    one clear event is sent, the buffer is emptied, the speech-seen flag
    and the processing flag are lowered. *)
Theorem clear_resets cfg s :
  wsOpen s = true ->
  let s' := clearAudioBuffer cfg s in
  wire s' = wire s ++ [input_audio_buffer_clear]
  /\ audioBuffer s' = []
  /\ hasSpeechInBuffer s' = false
  /\ isProcessingAudio s' = false
  /\ chunkCounter s' = chunkCounter s
  /\ totalBytes s' = totalBytes s.
Proof.
  intros Ho s'. subst s'. unfold clearAudioBuffer. rewrite Ho.
  cbn [negb]. unfold updateStats, send, log. vc_simpl.
  destruct (isProcessingAudio s) eqn:Hp; shapes; vc_simpl;
    repeat split; auto.
Qed.

Lemma processing_step cfg ev s :
  isProcessingAudio s = true -> isCaptureEvent ev = true ->
  isProcessingAudio (step cfg ev s) = true
  /\ wire (step cfg ev s) = wire s
  /\ audioBuffer (step cfg ev s) = audioBuffer s.
Proof.
  intros Hp Hev.
  destruct ev as [| | | | | | | startTime now msg | | | now audioData |];
    try discriminate Hev.
  - unfold step, commitAudioBuffer. rewrite Hp, orb_true_r.
    unfold log. vc_simpl. auto.
  - unfold step, onAudioData. rewrite Hp. cbn [negb]. rewrite andb_false_r.
    auto.
  - unfold step, sendChunk. rewrite Hp. cbn [negb andb].
    destruct (isRecording s); cbn [fst]; auto.
Qed.

(** X24.  Processing is inert on the capture side: while the processing
    flag is up, frames, timer ticks and commit requests send nothing,
    buffer nothing and leave the flag up. *)
Theorem processing_is_inert cfg evs : forall s,
  isProcessingAudio s = true ->
  forallb isCaptureEvent evs = true ->
  isProcessingAudio (run cfg evs s) = true
  /\ wire (run cfg evs s) = wire s
  /\ audioBuffer (run cfg evs s) = audioBuffer s.
Proof.
  induction evs as [| ev evs IH]; intros s Hp Hevs.
  - cbn [run]. auto.
  - cbn [forallb] in Hevs. apply andb_prop in Hevs.
    destruct Hevs as [Hev Hevs].
    destruct (processing_step cfg ev s Hp Hev) as (Hp' & Ew & Eb).
    destruct (IH _ Hp' Hevs) as (Fp & Fw & Fb).
    cbn [run]. rewrite Fw, Fb. auto.
Qed.

(** ** The shape of what is sent *)

(** What one step can put on the wire. *)
Lemma step_emission cfg ev s :
  exists l,
    wire (step cfg ev s) = wire s ++ l
    /\ (l = []
        \/ (exists audio, l = [input_audio_buffer_append audio])
        \/ l = [input_audio_buffer_clear]
        \/ (exists audio, l = [input_audio_buffer_append audio;
                               input_audio_buffer_commit])).
Proof.
  assert (Hcommit : forall x,
             exists l, wire (commitAudioBuffer cfg x) = wire x ++ l
               /\ (l = []
                   \/ (exists audio, l = [input_audio_buffer_append audio])
                   \/ l = [input_audio_buffer_clear]
                   \/ (exists audio, l = [input_audio_buffer_append audio;
                                          input_audio_buffer_commit]))).
  { intros x. destruct (commitAccepted x) eqn:E.
    - destruct (commitAudioBuffer_accepted cfg x E) as (Ew & _).
      eexists. split; [exact Ew |]. right. right. right. eexists.
      reflexivity.
    - destruct (commitAudioBuffer_refused cfg x E) as [m ->].
      exists []. rewrite app_nil_r. split; [reflexivity | now left]. }
  pose proof (step_wire_unchanged cfg ev s) as Hw.
  destruct ev as [| | | | | | | startTime now msg | | | now audioData |];
    try (exists []; rewrite app_nil_r; split; [exact Hw | now left]).
  - apply Hcommit.
  - unfold step, clearAudioBuffer.
    destruct (negb (wsOpen s)).
    + exists []. rewrite app_nil_r. split; [reflexivity | now left].
    + exists [input_audio_buffer_clear]. split; [callbacks | auto].
  - unfold step, onAudioData.
    destruct (isRecording s && negb (isProcessingAudio s));
      [| exists []; rewrite app_nil_r; split; [reflexivity | now left]].
    rewrite processAudioData_wire.
    destruct (autoCommitDue cfg s (now - lastSpeechTime s)) eqn:Hd.
    + destruct (frameSilent cfg audioData s) eqn:Hq.
      * rewrite (detectSilence_silent cfg now audioData s Hq), Hd.
        vc_simpl.
        match goal with
        | |- context [commitAudioBuffer cfg ?x] =>
            destruct (Hcommit x) as [l [El Hl]]
        end.
        exists l. split; [exact El | exact Hl].
      * rewrite (detectSilence_speech cfg now audioData s Hq).
        shapes. exists []. rewrite app_nil_r.
        split; [reflexivity | now left].
    + rewrite (detectSilence_no_auto_commit cfg now audioData s Hd).
      exists []. rewrite app_nil_r. split; [reflexivity | now left].
  - unfold step, sendChunk. destruct (isRecording s);
      [| exists []; rewrite app_nil_r; split; [reflexivity | now left]].
    vc_simpl.
    match goal with
    | |- context [if ?b then _ else _] => destruct b
    end; [| exists []; rewrite app_nil_r; split; [reflexivity | now left]].
    rewrite sendAudioChunk_wire. eexists. split; [reflexivity |].
    destruct (wsOpen _ && negb _); [right; left; eexists; reflexivity
                                   | now left].
Qed.

Lemma commitsFlushed_app l l' : forall prev,
  (forall p, commitsFlushed p l' = true) ->
  commitsFlushed prev (l ++ l') = commitsFlushed prev l.
Proof.
  induction l as [| e l IH]; intros prev H.
  - cbn [app commitsFlushed]. apply H.
  - cbn [app commitsFlushed]. now rewrite IH.
Qed.

(** X25.  Whatever happens to the component, on the wire every commit
    event comes directly after an append event: a turn is never committed
    without its last chunk having been sent just before. *)
Theorem commit_follows_append cfg evs :
  commitsFlushed false (wire (run cfg evs initialState)) = true.
Proof.
  assert (H : forall s, commitsFlushed false (wire s) = true ->
                        commitsFlushed false (wire (run cfg evs s)) = true).
  { induction evs as [| ev evs IH]; intros s Hs; [exact Hs |].
    cbn [run]. apply IH.
    destruct (step_emission cfg ev s)
      as [l [-> [-> | [[a ->] | [-> | [a ->]]]]]];
      rewrite commitsFlushed_app; try exact Hs; intros p; reflexivity. }
  apply H. reflexivity.
Qed.

(** X26.  Every chunk that the timer sends carries exactly
    [samplesPerChunk] samples, two bytes each. *)
Theorem timer_chunks_have_fixed_size cfg s audio :
  In (input_audio_buffer_append audio) (sent cfg EvChunkTimer s) ->
  List.length audio = (2 * Z.to_nat (samplesPerChunk cfg))%nat.
Proof.
  unfold sent, step, sendChunk.
  destruct (isRecording s);
    [| cbn [fst]; rewrite skipn_all; intros []].
  vc_simpl.
  destruct (negb (isProcessingAudio s) && negb (isSleeping s)
            && (samplesPerChunk cfg <=? Z.of_nat (List.length (audioBuffer s))))
    eqn:Hc; [| rewrite skipn_all; intros []].
  apply andb_prop in Hc. destruct Hc as [_ Hn]. apply Z.leb_le in Hn.
  rewrite sendAudioChunk_wire. vc_simpl.
  rewrite skipn_app, skipn_all, Nat.sub_diag. cbn [skipn app].
  destruct (isOpen (ws s) && negb (isProcessingAudio s)); [| intros []].
  intros [E | []]. injection E as <-.
  fold (encodeSamples
          (firstn (Z.to_nat (samplesPerChunk cfg)) (audioBuffer s))).
  rewrite encodeSamples_length, length_firstn. lia.
Qed.

End WithSqrt.

(** ** The properties on concrete sessions

    [Math.sqrt] is [Qsqrt] here; the frames of the scenarios have rational
    RMS values, on which it is exact. *)



Lemma append_only_when_open_and_idle_witness :
  let s := run Qsqrt smallConfig
             (recording ++ [EvAudioData 100 loudFrame]) initialState in
  wsOpen s = true /\ isProcessingAudio s = false /\ isConnected s = true.
Proof.
  apply (append_only_when_open_and_idle Qsqrt smallConfig
           (recording ++ [EvAudioData 100 loudFrame]) EvChunkTimer
           [255; 63; 1; 192; 255; 63; 1; 192]).
  vm_compute. left. reflexivity.
Defined.



(** C4, the code at the failing input.  A frame is recorded at 256 ms and
    committed; the transcript arrives two seconds later, at 2256 ms.  The
    latency that the statistics receive is 0 ms. *)
Theorem latency_ignores_commit_time :
  let reply := response_done
                 (Some [ {| content := Some [ {| text := Some "open chrome" |} ] |} ])
                 None in
  let s := run Qsqrt defaultConfig
             (recording ++ [EvAudioData 256 loudFrame; EvCommitAudio])
             initialState in
  let s' := step Qsqrt defaultConfig (EvWsMessage 2256 2256 reply) s in
  commitCount (wire s) = 1%nat
  /\ isProcessingAudio s = true
  /\ command s' = "open chrome"
  /\ latencyCount s' = 1
  /\ latencySum s' = 0
  /\ st_latencySum (audioStats s') = 0.
Proof.
  vm_compute. repeat split; reflexivity.
Qed.



(** C6, counterexample to the claim as stated.  A session has been
    created; after an explicit disconnect, and likewise after the loss of
    the connection, the session id and the session record are still
    there. *)
Lemma session_survives_disconnect :
  let s := run Qsqrt defaultConfig
             (connected
              ++ [EvWsMessage 10 10
                    (session_created "sess-42" (Some "whisper-1"))])
             initialState in
  let s1 := step Qsqrt defaultConfig EvDisconnect s in
  let s2 := step Qsqrt defaultConfig (EvWsClose 1006 "lost") s in
  (isConnected s1 = false
   /\ sessionId s1 = Some "sess-42"
   /\ sessionInfo s1 = Some {| id := "sess-42"; model := "whisper-1" |})
  /\ (isConnected s2 = false
      /\ sessionId s2 = Some "sess-42"
      /\ sessionInfo s2 = Some {| id := "sess-42"; model := "whisper-1" |}).
Proof.
  vm_compute. repeat split; reflexivity.
Qed.

Lemma disconnect_keeps_session_witness :
  let s := run Qsqrt defaultConfig
             (recording
              ++ [EvWsMessage 10 10
                    (session_created "sess-42" (Some "whisper-1"))])
             initialState in
  let evs := [EvWsOpen; EvStartRecording 3000;
              EvAudioData 3256 loudFrame; EvChunkTimer;
              EvWsMessage 3300 3300 session_updated; EvCommitAudio] in
  let s' := step Qsqrt defaultConfig (EvWsClose 1006 "lost") s in
  isConnected s' = false
  /\ wsOpen s' = false
  /\ isRecording s' = false
  /\ isProcessingAudio s' = false
  /\ sessionId s' = sessionId s
  /\ sessionInfo s' = sessionInfo s
  /\ isConnected (run Qsqrt defaultConfig evs s') = false
  /\ wsOpen (run Qsqrt defaultConfig evs s') = false.
Proof.
  apply (disconnect_keeps_session Qsqrt defaultConfig
           (EvWsClose 1006 "lost")).
  - vm_compute. reflexivity.
  - vm_compute. reflexivity.
Defined.


Lemma commit_with_empty_buffer_witness :
  let s := run Qsqrt defaultConfig recording initialState in
  let s' := commitAudioBuffer defaultConfig s in
  (exists msg, s' = log msg warning s)
  /\ wire s' = wire s
  /\ audioBuffer s' = []
  /\ isProcessingAudio s' = isProcessingAudio s
  /\ hasSpeechInBuffer s' = hasSpeechInBuffer s.
Proof.
  apply (commit_with_empty_buffer defaultConfig
           (run Qsqrt defaultConfig recording initialState)).
  vm_compute. reflexivity.
Defined.

(** ** Further properties on concrete sessions *)

Lemma int16Bytes_little_endian_witness :
  exists lo hi,
    int16Bytes (-16383) = [lo; hi]
    /\ 0 <= lo <= 255 /\ 0 <= hi <= 255
    /\ int16OfBytes lo hi = -16383.
Proof.
  apply (int16Bytes_little_endian (-16383)). lia.
Defined.


Lemma chunk_dropped_when_socket_not_open_witness :
  let s := run Qsqrt smallConfig
             [EvStartRecording 0; EvAudioData 100 loudFrame] initialState in
  fst (sendChunk smallConfig s)
  = set_audioBuffer s
      (skipn (Z.to_nat (samplesPerChunk smallConfig)) (audioBuffer s)).
Proof.
  apply (chunk_dropped_when_socket_not_open smallConfig).
  - vm_compute. reflexivity.
  - vm_compute. reflexivity.
  - vm_compute. reflexivity.
  - vm_compute. reflexivity.
  - vm_compute. discriminate.
Defined.


Lemma never_asleep_with_speech_witness :
  isSleeping (run Qsqrt defaultConfig
                (recording ++ [EvAudioData 100 loudFrame]) initialState)
  = false.
Proof.
  apply (never_asleep_with_speech Qsqrt defaultConfig
           (recording ++ [EvAudioData 100 loudFrame])).
  vm_compute. reflexivity.
Defined.

Lemma speech_frame_wakes_and_buffers_witness :
  let s := run Qsqrt defaultConfig
             (recording ++ [EvAudioData 1000 quietFrame]) initialState in
  let s' := step Qsqrt defaultConfig (EvAudioData 1256 loudFrame) s in
  isSleeping s' = false
  /\ hasSpeechInBuffer s' = true
  /\ lastSpeechTime s' = 1256
  /\ isProcessingAudio s' = false
  /\ audioBuffer s' = audioBuffer s ++ map pcmSample loudFrame
  /\ wire s' = wire s.
Proof.
  apply (speech_frame_wakes_and_buffers Qsqrt defaultConfig 1256 loudFrame).
  - vm_compute. reflexivity.
  - vm_compute. reflexivity.
  - vm_compute. reflexivity.
Defined.

Lemma asleep_until_speech_witness :
  let s := run Qsqrt defaultConfig
             (recording ++ [EvAudioData 1000 quietFrame]) initialState in
  let evs := [EvAudioData 1256 quietFrame; EvChunkTimer;
              EvAudioData 1512 quietFrame; EvChunkTimer] in
  isSleeping (run Qsqrt defaultConfig evs s) = true
  /\ wire (run Qsqrt defaultConfig evs s) = wire s
  /\ audioBuffer (run Qsqrt defaultConfig evs s) = audioBuffer s.
Proof.
  apply (asleep_until_speech Qsqrt defaultConfig).
  - vm_compute. reflexivity.
  - vm_compute. reflexivity.
  - vm_compute. reflexivity.
  - vm_compute. reflexivity.
  - vm_compute. repeat split; reflexivity.
Defined.

Lemma no_auto_commit_when_disabled_witness :
  let s := run Qsqrt manualConfig recording initialState in
  let evs := [EvAudioData 100 loudFrame; EvAudioData 9000 quietFrame;
              EvChunkTimer; EvAudioData 9256 quietFrame; EvClearBuffer] in
  commitCount (wire (run Qsqrt manualConfig evs s)) = commitCount (wire s).
Proof.
  apply (no_auto_commit_when_disabled Qsqrt manualConfig).
  - vm_compute. discriminate.
  - vm_compute. reflexivity.
Defined.

Lemma chunk_timer_reschedules_witness :
  let s := run Qsqrt defaultConfig recording initialState in
  exists d, snd (sendChunk defaultConfig s) = Some d
            /\ 0 < d <= Z.max (chunkSize defaultConfig * 4) 1000.
Proof.
  apply (chunk_timer_reschedules defaultConfig).
  - vm_compute. reflexivity.
  - vm_compute. reflexivity.
Defined.

Lemma worklet_posts_full_frames_witness :
  let r := process newAudioProcessorWorklet [repeat (1 # 2) 5000] in
  workletReady (fst r)
  /\ bufferSize (fst r) = bufferSize newAudioProcessorWorklet
  /\ Forall (fun f => List.length f = bufferSize newAudioProcessorWorklet)
            (snd r).
Proof.
  apply (worklet_posts_full_frames newAudioProcessorWorklet).
  split; [reflexivity | apply Nat.lt_0_succ].
Defined.

Lemma worklet_keeps_the_stream_witness :
  let r := process newAudioProcessorWorklet [repeat (1 # 2) 5000] in
  List.concat (snd r) ++ pendingSamples (fst r)
  = pendingSamples newAudioProcessorWorklet ++ repeat (1 # 2) 5000.
Proof.
  apply (worklet_keeps_the_stream newAudioProcessorWorklet).
  split; [reflexivity | apply Nat.lt_0_succ].
Defined.

Lemma visualization_bars_in_range_witness :
  List.length (updateVisualization initialLevels (repeat (1 # 2) 4096))
  = List.length initialLevels
  /\ Forall (fun bar => exists h, bar = Some h /\ (0 <= h <= 60)%Q)
            (updateVisualization initialLevels (repeat (1 # 2) 4096)).
Proof.
  apply (visualization_bars_in_range initialLevels (repeat (1 # 2) 4096)).
  unfold initialLevels. rewrite !repeat_length. lia.
Defined.

Lemma visualization_short_frame_witness :
  updateVisualization initialLevels loudFrame
  = repeat None (List.length initialLevels).
Proof.
  apply (visualization_short_frame initialLevels loudFrame).
  unfold initialLevels. rewrite repeat_length. simpl. lia.
Defined.

Lemma clear_resets_witness :
  let s := run Qsqrt smallConfig
             (recording ++ [EvAudioData 100 loudFrame; EvCommitAudio])
             initialState in
  let s' := clearAudioBuffer smallConfig s in
  wire s' = wire s ++ [input_audio_buffer_clear]
  /\ audioBuffer s' = []
  /\ hasSpeechInBuffer s' = false
  /\ isProcessingAudio s' = false
  /\ chunkCounter s' = chunkCounter s
  /\ totalBytes s' = totalBytes s.
Proof.
  apply (clear_resets smallConfig). vm_compute. reflexivity.
Defined.

Lemma processing_is_inert_witness :
  let s := run Qsqrt smallConfig
             (recording ++ [EvAudioData 100 loudFrame; EvCommitAudio])
             initialState in
  let evs := [EvAudioData 356 loudFrame; EvChunkTimer; EvCommitAudio;
              EvAudioData 612 quietFrame] in
  isProcessingAudio (run Qsqrt smallConfig evs s) = true
  /\ wire (run Qsqrt smallConfig evs s) = wire s
  /\ audioBuffer (run Qsqrt smallConfig evs s) = audioBuffer s.
Proof.
  apply (processing_is_inert Qsqrt smallConfig).
  - vm_compute. reflexivity.
  - vm_compute. reflexivity.
Defined.

Lemma timer_chunks_have_fixed_size_witness :
  List.length [255; 63; 1; 192; 255; 63; 1; 192]
  = (2 * Z.to_nat (samplesPerChunk smallConfig))%nat.
Proof.
  apply (timer_chunks_have_fixed_size Qsqrt smallConfig
           (run Qsqrt smallConfig
              (recording ++ [EvAudioData 100 loudFrame]) initialState)).
  vm_compute. left. reflexivity.
Defined.

End VoiceControl.
